(** * Blancosy financials: the official data processor

    A shallow embedding of [official_data_processor.py], the class
    [OfficialBlancosyDataProcessor]: the loader that consolidates the
    official 2024 profit-and-loss figures with the 2025 spreadsheet
    sheets, and the calculator functions [get_data_summary],
    [filter_data], [calculate_kpis] and [get_official_2024_summary].

    Modelling choices.
    - Amounts are pandas [float64] values: the kernel's binary64 floats,
      with NaN for a missing value, exactly as pandas stores them.
    - A spreadsheet cell that the code parses ([pd.to_datetime],
      [pd.to_numeric] with [errors='coerce']) is a raw [cell]; the
      [Withdrawals] and [Deposits] columns, which the code uses as numbers
      without parsing them, are [float64] columns.
    - [try: ... except Exception] blocks are a writer/exception monad: a
      body yields the frames it appended to [all_data] and whether it
      reached [success = True] before it finished or raised; what was
      appended before a raise stays appended, as in Python.
    - A [pd.Series.sum] is numpy's pairwise summation of the float64 values,
      NaN counting as 0.
    - The model covers the workbooks whose Withdrawals and Deposits columns
      hold numbers or blanks. A text in one of them is outside it: the
      Labour, Purchase of stock and Expense blocks would keep such a row, and
      the logging summary at the end of [load_and_clean_data] would raise
      TypeError on it. *)

From Stdlib Require Import List String ZArith QArith Qabs Bool Floats Permutation Lia Sorted.
Import ListNotations.

Set Warnings "-inexact-float".

(** ** Values *)

(** A calendar date; a pandas timestamp is [option date], [None] being NaT. *)
Record date := mkDate { d_year : Z; d_month : Z; d_day : Z }.

Definition timestamp := option date.

(** What [pd.read_excel] hands over for one cell of an object column. *)
Inductive cell :=
| Blank
| Num (x : float)
| Str (s : string)
| Day (d : date).

(** The behaviour of pandas on text and on values of the wrong kind, left to
    the library: what a text parses to, what a date in a numeric column or a
    number in a date column is coerced to. *)
Record coercions := {
  text_to_float : string -> float;
  text_to_date : string -> timestamp;
  day_to_float : date -> float;
  float_to_date : float -> timestamp
}.

Definition isna (x : float) : bool := PrimFloat.is_nan x.
Definition notna (x : float) : bool := negb (isna x).

(** [Series.fillna(v)] on one value. *)
Definition fillna (x v : float) : float := if isna x then v else x.

(** numpy's pairwise summation of a float64 array, which [Series.sum()]
    comes down to ([DOUBLE_pairwise_sum]): fewer than eight values are added
    left to right from -0.0; up to 128 values are added into eight running
    sums, which are then added as a tree, the values left over after the last
    full block of eight being added one by one; a longer array is cut in two,
    the first part a multiple of eight, and the sums of the parts are added.
    [fuel] bounds the depth of the cutting; the length of the array is
    enough ([pairwise_sum_fuel]). *)
Definition add8 (r a : list float) : list float :=
  map (fun p => (fst p + snd p)%float) (combine r a).

Fixpoint accumulate (blocks : nat) (r a : list float) : list float * list float :=
  match blocks with
  | O => (r, a)
  | S k => accumulate k (add8 r (firstn 8 a)) (skipn 8 a)
  end.

Definition reduce8 (r : list float) : float :=
  match r with
  | [r0; r1; r2; r3; r4; r5; r6; r7] =>
      (((r0 + r1) + (r2 + r3)) + ((r4 + r5) + (r6 + r7)))%float
  | _ => nan
  end.

Definition block_sum (a : list float) : float :=
  let '(r, rest) := accumulate (List.length a / 8 - 1) (firstn 8 a) (skipn 8 a) in
  fold_left PrimFloat.add rest (reduce8 r).

Fixpoint pairwise_sum (fuel : nat) (a : list float) : float :=
  let n := List.length a in
  if (n <? 8)%nat then fold_left PrimFloat.add a neg_zero
  else if (n <=? 128)%nat then block_sum a
  else match fuel with
       | O => nan
       | S fuel' =>
           let n2 := (n / 2 - (n / 2) mod 8)%nat in
           (pairwise_sum fuel' (firstn n2 a) + pairwise_sum fuel' (skipn n2 a))%float
       end.

(** [Series.sum()]: NaN counts as 0 ([skipna]); an empty series sums to 0;
    otherwise numpy adds the pairwise sum to its initial value -0.0. *)
Definition series_sum (xs : list float) : float :=
  match xs with
  | [] => 0%float
  | _ => (neg_zero
          + pairwise_sum (List.length xs) (map (fun x => fillna x 0%float) xs))%float
  end.

Section Coerce.
Variable pd : coercions.

(** [pd.to_datetime(x, errors='coerce')], cell by cell: what a text parses to
    is left to [coercions]. (pandas settles the format of the texts of a
    column from the column as a whole, so that what a text parses to can
    depend on the other rows of the sheet.) *)
Definition to_datetime (c : cell) : timestamp :=
  match c with
  | Blank => None
  | Day d => Some d
  | Str s => text_to_date pd s
  | Num x => if isna x then None else float_to_date pd x
  end.

(** [pd.to_numeric(x, errors='coerce')] *)
Definition to_numeric (c : cell) : float :=
  match c with
  | Blank => nan
  | Num x => x
  | Str s => text_to_float pd s
  | Day d => day_to_float pd d
  end.
End Coerce.

(** ** Transaction records and frames *)

Record Transaction := mkTransaction {
  Date : timestamp;
  Amount : float;
  Year : Z;
  Category : string;
  Type_ : string;
  Details : cell
}.

(** A data frame with the six ledger columns, row by row. *)
Definition frame := list Transaction.

(** The derived columns of the consolidated ledger:
    [Date.dt.to_period('M')] and [Date.dt.to_period('Q')]; [None] is NaT. *)
Definition Month (t : Transaction) : option (Z * Z) :=
  match Date t with
  | Some d => Some (d_year d, d_month d)
  | None => None
  end.

Definition Quarter (t : Transaction) : option (Z * Z) :=
  match Date t with
  | Some d => Some (d_year d, (d_month d - 1) / 3 + 1)%Z
  | None => None
  end.

Definition is_type (ty : string) (t : Transaction) : bool := String.eqb (Type_ t) ty.

Definition amounts (df : frame) : list float := map Amount df.

(** The fixed label set of the data model. *)
Definition categories_fixed : list string :=
  ["Sales"; "Stock Purchase"; "Labour"; "Rent"; "Transport"; "Transaction Costs";
   "Utilities"; "Savings"; "Savings Withdrawal"; "Other Expenses"]%string.

(** ** calculate_kpis and get_official_2024_summary *)

Record kpis := mkKpis {
  total_income : float;
  total_expenses : float;
  net_profit : float;
  profit_margin : float
}.

Definition calculate_kpis (filtered_data : frame) : kpis :=
  match filtered_data with
  | [] => mkKpis 0 0 0 0
  | _ =>
    let total_income := series_sum (amounts (filter (is_type "Income") filtered_data)) in
    let total_expenses := series_sum (amounts (filter (is_type "Expense") filtered_data)) in
    let net_profit := (total_income - total_expenses)%float in
    let profit_margin :=
      if (0 <? total_income)%float then (net_profit / total_income * 100)%float
      else 0%float in
    mkKpis total_income total_expenses net_profit profit_margin
  end.

Record official_summary := mkOfficial {
  o_sales : float;
  o_cogs : float;
  o_gross_profit : float;
  o_labour : float;
  o_rent : float;
  o_transport : float;
  o_transaction_costs : float;
  o_total_operating_expenses : float;
  o_net_profit : float;
  o_gross_profit_margin : float;
  o_net_profit_margin : float
}.

Definition get_official_2024_summary : official_summary :=
  {| o_sales := 22619122;
     o_cogs := 17244564;
     o_gross_profit := 5374558;
     o_labour := 601155;
     o_rent := 192000;
     o_transport := 1028770;
     o_transaction_costs := 163557.65;
     o_total_operating_expenses := 1985482.65;
     o_net_profit := 3389075.35;
     o_gross_profit_margin := 23.8;
     o_net_profit_margin := 15.0 |}.

(** The exact rational value of a finite binary64 number. *)
Definition exact (x : float) : option Q :=
  match Prim2SF x with
  | S754_zero _ => Some 0%Q
  | S754_finite s m e =>
      Some ((if s then -1 else 1) * (Z.pos m # 1) * Qpower 2 e)%Q
  | _ => None
  end.

Definition exactQ (x : float) : Q :=
  match exact x with Some q => q | None => 0%Q end.

(** ** The workbook "blancosy book of accounts 2025.xlsx" *)

(** A sheet the code re-labels by position ([df.columns = [...]]): the header
    row and the data rows as read. A short row is padded with blanks. *)
Record sheet := mkSheet {
  header : list string;
  rows : list (list cell)
}.

(** The columns of a bank-statement sheet that the code reads by name. *)
Inductive column := TranDate | Withdrawals | Deposits | TransactionNarrative.

Definition column_eqb (a b : column) : bool :=
  match a, b with
  | TranDate, TranDate | Withdrawals, Withdrawals
  | Deposits, Deposits | TransactionNarrative, TransactionNarrative => true
  | _, _ => false
  end.

Definition column_name (c : column) : string :=
  match c with
  | TranDate => "Tran Date"
  | Withdrawals => "Withdrawals"
  | Deposits => "Deposits"
  | TransactionNarrative => "Transaction Narrative"
  end.

(** One row of a bank-statement sheet. A field whose column the sheet does
    not have is never read. The amounts are the values of a float64 column:
    the model covers the sheets whose Withdrawals and Deposits hold numbers
    or blanks. (The code never parses these columns; a text in one of them
    would make the Utilities and Savings blocks raise, and would be kept as
    it is by the Labour, Purchase of stock and Expense blocks.) *)
Record tran_row := mkTranRow {
  tran_date : cell;
  withdrawals : float;
  deposits : float;
  narrative : cell
}.

(** A bank-statement sheet: the named columns it has, and its rows. *)
Record tran_sheet := mkTranSheet {
  columns : list column;
  trows : list tran_row
}.

Record workbook := mkWorkbook {
  Sales : option sheet;
  Labour : option tran_sheet;
  rent : option sheet;
  Purchase_of_stock : option tran_sheet;
  Utilities : option tran_sheet;
  Saving : option tran_sheet;
  Expense : option tran_sheet
}.

(** ** Exceptions and the loader monad *)

Inductive error :=
| FileNotFoundError
| SheetNotFound (name : string)
| KeyError (name : string)
| LengthMismatch (expected got : nat).

Inductive result (A : Type) :=
| Ok (a : A)
| Raise (e : error).
Arguments Ok {A} a.
Arguments Raise {A} e.

Definition is_ok {A} (r : result A) : bool :=
  match r with Ok _ => true | Raise _ => false end.

(** What a block of the loader did to the two local variables [all_data] and
    [success], and what it logged with [logger.error]. *)
Record effects := mkEffects {
  all_data : list frame;
  success : bool;
  errors : list (string * error)
}.

Definition no_effect : effects := mkEffects [] false [].

Definition and_then (a b : effects) : effects :=
  mkEffects (all_data a ++ all_data b) (success a || success b) (errors a ++ errors b).

Definition M (A : Type) : Type := result A * effects.

Definition ret {A} (a : A) : M A := (Ok a, no_effect).
Definition raise {A} (e : error) : M A := (Raise e, no_effect).
Definition lift {A} (r : result A) : M A := (r, no_effect).

Definition bind {A B} (m : M A) (f : A -> M B) : M B :=
  match m with
  | (Ok a, w) => let '(r, w') := f a in (r, and_then w w')
  | (Raise e, w) => (Raise e, w)
  end.

Notation "x <- m ;; k" := (bind m (fun x => k))
  (at level 61, m at next level, right associativity).
Notation "m ;;; k" := (bind m (fun _ => k))
  (at level 61, right associativity).

(** [all_data.append(df)] *)
Definition append (df : frame) : M unit := (Ok tt, mkEffects [df] false []).

(** [success = True] *)
Definition set_success : M unit := (Ok tt, mkEffects [] true []).

(** [logger.error(...)] *)
Definition log_error (what : string) (e : error) : M unit :=
  (Ok tt, mkEffects [] false [(what, e)]).

(** [try: body except Exception as e: logger.error(...)] *)
Definition try_except (what : string) (body : M unit) : M unit :=
  match body with
  | (Ok _, w) => (Ok tt, w)
  | (Raise e, w) => let '(r, w') := log_error what e in (r, and_then w w')
  end.

(** [pd.read_excel("blancosy book of accounts 2025.xlsx", sheet_name=...)] *)
Definition read_excel {S} (file : option workbook) (name : string)
    (sheet_of : workbook -> option S) : result S :=
  match file with
  | None => Raise FileNotFoundError
  | Some wb =>
    match sheet_of wb with
    | Some s => Ok s
    | None => Raise (SheetNotFound name)
    end
  end.

(** [df[c]], or any other use of column [c]: a [KeyError] when it is absent. *)
Definition need (df : tran_sheet) (c : column) : result unit :=
  if existsb (column_eqb c) (columns df) then Ok tt else Raise (KeyError (column_name c)).

(** [df.columns = [five names]] *)
Definition set_columns (df : sheet) (n : nat) : result unit :=
  if Nat.eqb (List.length (header df)) n then Ok tt
  else Raise (LengthMismatch n (List.length (header df))).

Definition at_col (i : nat) (row : list cell) : cell := nth i row Blank.

Definition date_notna (d : timestamp) : bool :=
  match d with Some _ => true | None => false end.

Definition nonempty {A} (l : list A) : bool :=
  match l with [] => false | _ => true end.

Fixpoint for_each {A} (l : list A) (body : A -> M unit) : M unit :=
  match l with
  | [] => ret tt
  | a :: l' => body a ;;; for_each l' body
  end.

(** ** load_and_clean_data *)

Definition year_end_2024 : timestamp := Some (mkDate 2024 12 31).

Definition sales_data : Transaction :=
  mkTransaction year_end_2024 22619122 2024 "Sales" "Income"
    (Str "Total Sales Revenue (Official P&L)").

Definition cogs_data : Transaction :=
  mkTransaction year_end_2024 17244564 2024 "Stock Purchase" "Expense"
    (Str "Cost of Goods Sold - Purchases (Official P&L)").

Definition expenses_2024 : list (string * float * string) :=
  [("Labour", 601155%float, "Labour Expenses (Official P&L)");
   ("Rent", 192000%float, "Rent Expenses (Official P&L)");
   ("Transport", 1028770%float, "Transport Expenses (Official P&L)");
   ("Transaction Costs", 163557.65%float, "Transaction Costs & Charges (Official P&L)")]%string.

Definition expense_data (expense : string * float * string) : Transaction :=
  let '(category, amount, details) := expense in
  mkTransaction year_end_2024 amount 2024 category "Expense" (Str details).

(** The first [try] block: the 2024 records from the official P&L figures. *)
Definition official_2024 : M unit :=
  append [sales_data] ;;;
  append [cogs_data] ;;;
  for_each expenses_2024 (fun expense => append [expense_data expense]) ;;;
  set_success.

Section Loader.
Variable pd : coercions.
Variable file : option workbook.

(** Sales 2025: columns re-labelled Date, Value_Date, Withdrawals, Amount,
    Details; date and amount parsed; rows without either dropped. *)
Definition sales_rows (df : sheet) : frame :=
  map (fun row =>
         mkTransaction (to_datetime pd (at_col 0 row)) (to_numeric pd (at_col 3 row))
           2025 "Sales" "Income" (at_col 4 row))
    (filter (fun row => date_notna (to_datetime pd (at_col 0 row))
                        && notna (to_numeric pd (at_col 3 row)))
       (rows df)).

Definition load_sales : M unit :=
  df <- lift (read_excel file "Sales" Sales) ;;
  lift (set_columns df 5) ;;;
  append (sales_rows df) ;;;
  set_success.

(** Rent 2025: the first data row skipped ([df.iloc[1:]]), columns
    re-labelled Date1, Date, Amount, Col3, Details. *)
Definition rent_rows (df : sheet) : frame :=
  map (fun row =>
         mkTransaction (to_datetime pd (at_col 1 row)) (to_numeric pd (at_col 2 row))
           2025 "Rent" "Expense" (at_col 4 row))
    (filter (fun row => date_notna (to_datetime pd (at_col 1 row))
                        && notna (to_numeric pd (at_col 2 row)))
       (tl (rows df))).

Definition load_rent : M unit :=
  df <- lift (read_excel file "rent" rent) ;;
  lift (set_columns df 5) ;;;
  append (rent_rows df) ;;;
  set_success.

(** Labour, Purchase of stock and Expense 2025 have one shape: the date
    parsed, rows without a date or without the amount column's value
    dropped, the amount column renamed to Amount. *)
Definition statement_rows (amount : tran_row -> float) (category : string)
    (df : tran_sheet) : frame :=
  map (fun r =>
         mkTransaction (to_datetime pd (tran_date r)) (amount r)
           2025 category "Expense" (narrative r))
    (filter (fun r => date_notna (to_datetime pd (tran_date r)) && notna (amount r))
       (trows df)).

Definition load_statement (name : string) (sheet_of : workbook -> option tran_sheet)
    (amount_col : column) (amount : tran_row -> float) (category : string) : M unit :=
  df <- lift (read_excel file name sheet_of) ;;
  lift (need df TranDate) ;;;
  lift (need df amount_col) ;;;
  lift (need df TransactionNarrative) ;;;
  append (statement_rows amount category df) ;;;
  set_success.

Definition load_labour : M unit :=
  load_statement "Labour" Labour Withdrawals withdrawals "Labour".

Definition load_stock : M unit :=
  load_statement "Purchase of stock" Purchase_of_stock Deposits deposits "Stock Purchase".

Definition load_other : M unit :=
  load_statement "Expense" Expense Withdrawals withdrawals "Other Expenses".

(** Utilities 2025: Amount = Withdrawals.fillna(0) + Deposits.fillna(0);
    rows without a date dropped, then rows with Amount > 0 kept. *)
Definition utilities_amount (r : tran_row) : float :=
  (fillna (withdrawals r) 0 + fillna (deposits r) 0)%float.

Definition utilities_rows (df : tran_sheet) : frame :=
  map (fun r =>
         mkTransaction (to_datetime pd (tran_date r)) (utilities_amount r)
           2025 "Utilities" "Expense" (narrative r))
    (filter (fun r => (0 <? utilities_amount r)%float)
       (filter (fun r => date_notna (to_datetime pd (tran_date r))) (trows df))).

Definition load_utilities : M unit :=
  df <- lift (read_excel file "Utilities" Utilities) ;;
  lift (need df TranDate) ;;;
  lift (need df Withdrawals) ;;;
  lift (need df Deposits) ;;;
  lift (need df TransactionNarrative) ;;;
  append (utilities_rows df) ;;;
  set_success.

(** Savings 2025: the rows with a positive deposit become Income/Savings,
    the rows with a positive withdrawal Expense/Savings Withdrawal; each
    of the two frames is appended when it is not empty. *)
Definition is_deposit (r : tran_row) : bool :=
  notna (deposits r) && (0 <? deposits r)%float.

Definition is_withdrawal (r : tran_row) : bool :=
  notna (withdrawals r) && (0 <? withdrawals r)%float.

Definition savings_income (r : tran_row) : Transaction :=
  mkTransaction (to_datetime pd (tran_date r)) (deposits r)
    2025 "Savings" "Income" (narrative r).

Definition savings_expense (r : tran_row) : Transaction :=
  mkTransaction (to_datetime pd (tran_date r)) (withdrawals r)
    2025 "Savings Withdrawal" "Expense" (narrative r).

Definition income_df (df : tran_sheet) : frame :=
  map savings_income (filter is_deposit (trows df)).

Definition expense_df (df : tran_sheet) : frame :=
  map savings_expense (filter is_withdrawal (trows df)).

Definition load_savings : M unit :=
  df <- lift (read_excel file "Saving" Saving) ;;
  lift (need df TranDate) ;;;
  lift (need df Deposits) ;;;
  (if nonempty (income_df df)
   then lift (need df TransactionNarrative) ;;; append (income_df df)
   else ret tt) ;;;
  lift (need df Withdrawals) ;;;
  (if nonempty (expense_df df)
   then lift (need df TransactionNarrative) ;;; append (expense_df df)
   else ret tt) ;;;
  set_success.

(** The seven spreadsheet sources, in the order the code tries them. *)
Definition sheet_sources : list (string * M unit) :=
  [("Sales 2025", load_sales);
   ("Labour 2025", load_labour);
   ("Rent 2025", load_rent);
   ("Stock Purchase 2025", load_stock);
   ("Utilities 2025", load_utilities);
   ("Savings 2025", load_savings);
   ("Other Expenses 2025", load_other)]%string.

(** All sources: the official figures first. *)
Definition sources : list (string * M unit) :=
  ("2024 official data", official_2024)%string :: sheet_sources.

(** The body of [load_and_clean_data] up to "Consolidate all data". *)
Definition load_all : M unit :=
  try_except "2024 official data" official_2024 ;;;
  try_except "2025 file"
    (for_each sheet_sources (fun s => try_except (fst s) (snd s))).

Record processor := mkProcessor { consolidated_data : option frame }.

(** "Consolidate all data": [pd.concat(all_data, ignore_index=True)] when
    [all_data and success]; the value returned is [success]. What the code
    logs there (the date range, the categories, the years, the count and sum
    of Amount by category and type) changes nothing on a float64 Amount
    column, and is left out; on an Amount column that holds a text that
    last summary, which no [try] guards, raises TypeError. *)
Definition consolidate (w : effects) (self : processor) : bool * processor :=
  if nonempty (all_data w) && success w
  then (success w, mkProcessor (Some (List.concat (all_data w))))
  else (success w, self).

Definition load_and_clean_data (self : processor) : bool * processor :=
  consolidate (snd load_all) self.

(** The ledger that [pd.concat(all_data)] makes of what was appended. *)
Definition ledger : frame := List.concat (all_data (snd load_all)).
End Loader.

(** [OfficialBlancosyDataProcessor()] *)
Definition new_processor : processor := mkProcessor None.

(** ** get_data_summary *)

(** [Series.unique()]: the distinct values in order of first appearance. *)
Fixpoint unique {A} (eqb : A -> A -> bool) (l : list A) : list A :=
  match l with
  | [] => []
  | a :: l' => a :: filter (fun b => negb (eqb a b)) (unique eqb l')
  end.

Fixpoint insert_sorted {A} (leb : A -> A -> bool) (a : A) (l : list A) : list A :=
  match l with
  | [] => [a]
  | b :: l' => if leb a b then a :: l else b :: insert_sorted leb a l'
  end.

(** [sorted(...)] *)
Definition sorted {A} (leb : A -> A -> bool) (l : list A) : list A :=
  fold_right (insert_sorted leb) [] l.

Definition date_leb (a b : date) : bool :=
  (d_year a <? d_year b)%Z
  || ((d_year a =? d_year b)%Z
      && ((d_month a <? d_month b)%Z
          || ((d_month a =? d_month b)%Z && (d_day a <=? d_day b)%Z))).

(** [Series.min()] and [Series.max()] of a date column: NaT is skipped, and
    is the answer only when nothing else is there. *)
Definition pick (better : date -> date -> bool) (acc : timestamp) (d : timestamp)
    : timestamp :=
  match acc, d with
  | None, _ => d
  | _, None => acc
  | Some a, Some b => if better b a then Some b else Some a
  end.

Definition date_min (ds : list timestamp) : timestamp :=
  fold_left (pick date_leb) ds None.

Definition date_max (ds : list timestamp) : timestamp :=
  fold_left (pick (fun b a => date_leb a b)) ds None.

Record year_entry := mkYearEntry {
  transactions : nat;
  year_total_income : float;
  year_total_expenses : float
}.

Record summary := mkSummary {
  total_transactions : nat;
  date_range : timestamp * timestamp;
  categories : list string;
  years : list Z;
  transaction_types : list string;
  year_breakdown : list (Z * year_entry)
}.

(** The entry of one year in the year-wise breakdown. *)
Definition breakdown_of (data : frame) (year : Z) : year_entry :=
  let year_data := filter (fun t => (Year t =? year)%Z) data in
  mkYearEntry (List.length year_data)
    (series_sum (amounts (filter (is_type "Income") year_data)))
    (series_sum (amounts (filter (is_type "Expense") year_data))).

(** The summary dictionary; [None] is the empty dictionary [{}]. *)
Definition get_data_summary (self : processor) : option summary :=
  match consolidated_data self with
  | None => None
  | Some data =>
    let years := sorted Z.leb (unique Z.eqb (map Year data)) in
    Some (mkSummary
            (List.length data)
            (date_min (map Date data), date_max (map Date data))
            (sorted String.leb (unique String.eqb (map Category data)))
            years
            (sorted String.leb (unique String.eqb (map Type_ data)))
            (map (fun year => (year, breakdown_of data year)) years))
  end.

(** [d[key]] on the year-wise breakdown; [None] is a missing key. *)
Definition lookup_year (year : Z) (d : list (Z * year_entry)) : option year_entry :=
  option_map snd (find (fun p => (fst p =? year)%Z) d).

(** ** filter_data *)

(** The [year] argument: an integer, or a string such as ['both']. *)
Inductive year_arg :=
| YearInt (y : Z)
| YearStr (s : string).

(** Python truth value of the arguments. *)
Definition year_truthy (year : option year_arg) : bool :=
  match year with
  | None => false
  | Some (YearInt y) => negb (y =? 0)%Z
  | Some (YearStr s) => negb (String.eqb s "")
  end.

Definition year_is_both (year : option year_arg) : bool :=
  match year with
  | Some (YearStr s) => String.eqb s "both"
  | _ => false
  end.

(** [filtered_data['Year'] == year], row by row: an integer year never
    equals a string. *)
Definition year_eq (year : option year_arg) (t : Transaction) : bool :=
  match year with
  | Some (YearInt y) => (Year t =? y)%Z
  | _ => false
  end.

Definition list_truthy {A} (l : option (list A)) : bool :=
  match l with
  | Some (_ :: _) => true
  | _ => false
  end.

(** [filtered_data['Category'].isin(categories)] *)
Definition isin (categories : option (list string)) (t : Transaction) : bool :=
  match categories with
  | Some cs => existsb (String.eqb (Category t)) cs
  | None => false
  end.

Definition str_truthy (s : option string) : bool :=
  match s with
  | Some s => negb (String.eqb s "")
  | None => false
  end.

Definition str_is_both (s : option string) : bool :=
  match s with
  | Some s => String.eqb s "both"
  | None => false
  end.

Definition type_eq (transaction_type : option string) (t : Transaction) : bool :=
  match transaction_type with
  | Some s => String.eqb (Type_ t) s
  | None => false
  end.

Definition filter_data (self : processor) (year : option year_arg)
    (categories : option (list string)) (transaction_type : option string) : frame :=
  match consolidated_data self with
  | None => []
  | Some data =>
    let filtered_data := data in
    let filtered_data :=
      if year_truthy year && negb (year_is_both year)
      then filter (year_eq year) filtered_data else filtered_data in
    let filtered_data :=
      if list_truthy categories
      then filter (isin categories) filtered_data else filtered_data in
    let filtered_data :=
      if str_truthy transaction_type && negb (str_is_both transaction_type)
      then filter (type_eq transaction_type) filtered_data else filtered_data in
    filtered_data
  end.

(** ** get_consolidated_data *)

Definition get_consolidated_data (self : processor) : option frame :=
  consolidated_data self.

(** ** generate_static_dashboard.py: the data the dashboard shows *)

(** What a method of [StaticDashboardGenerator] can raise. *)
Inductive exception :=
| TypeError (what : string)
| MissingKey (key : string)
| MissingYear (year : Z).

Inductive outcome (A : Type) :=
| Returns (a : A)
| Raises (e : exception).
Arguments Returns {A} a.
Arguments Raises {A} e.

Record StaticDashboardGenerator := mkGenerator {
  data_processor : processor;
  generator_data : option frame;
  generator_official : option official_summary
}.

(** [StaticDashboardGenerator()] *)
Definition new_generator : StaticDashboardGenerator :=
  mkGenerator new_processor None None.

(** [load_data]: on success the ledger and the official summary are taken
    from the processor, and [len(self.consolidated_data)] is printed, which
    raises when there is no ledger. (An exception of [load_and_clean_data]
    would pass through; on the workbooks of this model it raises none.) *)
Definition load_data (pd : coercions) (file : option workbook)
    (self : StaticDashboardGenerator) : outcome (bool * StaticDashboardGenerator) :=
  let '(success, p) := load_and_clean_data pd file (data_processor self) in
  if success
  then match get_consolidated_data p with
       | Some data =>
           Returns (true, mkGenerator p (Some data) (Some get_official_2024_summary))
       | None => Raises (TypeError "object of type 'NoneType' has no len()")
       end
  else Returns (false, mkGenerator p (generator_data self) (generator_official self)).

(** [create_yoy_comparison]: the bars of the chart, the years with the income
    and the expenses of each, in the order of the year-wise breakdown. *)
Record yoy_chart := mkYoy {
  yoy_years : list Z;
  yoy_income : list float;
  yoy_expenses : list float
}.

Definition create_yoy_comparison (self : StaticDashboardGenerator) : outcome yoy_chart :=
  match get_data_summary (data_processor self) with
  | None => Raises (MissingKey "year_breakdown")
  | Some summary =>
      Returns (mkYoy (map fst (year_breakdown summary))
                 (map (fun kv => year_total_income (snd kv)) (year_breakdown summary))
                 (map (fun kv => year_total_expenses (snd kv)) (year_breakdown summary)))
  end.

Record key_metrics := mkKeyMetrics {
  net_profit_2024 : float;
  profit_margin_2024 : float;
  gross_margin_2024 : float;
  total_revenue_2024 : float;
  total_expenses_2024 : float
}.

Record dashboard_data := mkDashboardData {
  dd_official_2024 : official_summary;
  dd_total_transactions : nat;
  dd_years : list Z;
  dd_categories : list string;
  dd_year_breakdown : list (Z * year_entry);
  dd_key_metrics : key_metrics
}.

(** [generate_data_json] *)
Definition generate_data_json (self : StaticDashboardGenerator) : outcome dashboard_data :=
  match get_data_summary (data_processor self) with
  | None => Raises (MissingKey "total_transactions")
  | Some summary =>
    match generator_official self with
    | None => Raises (TypeError "'NoneType' object is not subscriptable")
    | Some official =>
        Returns (mkDashboardData official
                   (total_transactions summary) (years summary) (categories summary)
                   (year_breakdown summary)
                   (mkKeyMetrics (o_net_profit official) (o_net_profit_margin official)
                      (o_gross_profit_margin official) (o_sales official)
                      (o_total_operating_expenses official + o_cogs official)))
    end
  end.

(** The "Financial Summary" table of the page template in
    [generate_static_dashboard]: the numbers of its three rows, 2024, 2025
    and the change in percent, as the template computes them from
    [dashboard_data] before it formats them. *)
Record summary_row := mkSummaryRow {
  value_2024 : float;
  value_2025 : float;
  change_percent : float
}.

Record summary_table := mkSummaryTable {
  sales_revenue : summary_row;
  total_expenses_row : summary_row;
  net_profit_row : summary_row
}.

Definition change (now before : float) : float := ((now - before) / before * 100)%float.

Definition financial_summary (d : dashboard_data) : outcome summary_table :=
  match lookup_year 2024 (dd_year_breakdown d) with
  | None => Raises (MissingYear 2024)
  | Some y2024 =>
    match lookup_year 2025 (dd_year_breakdown d) with
    | None => Raises (MissingYear 2025)
    | Some y2025 =>
      let net_2024 := (year_total_income y2024 - year_total_expenses y2024)%float in
      let net_2025 := (year_total_income y2025 - year_total_expenses y2025)%float in
      Returns (mkSummaryTable
                 (mkSummaryRow (year_total_income y2024) (year_total_income y2025)
                    (change (year_total_income y2025) (year_total_income y2024)))
                 (mkSummaryRow (year_total_expenses y2024) (year_total_expenses y2025)
                    (change (year_total_expenses y2025) (year_total_expenses y2024)))
                 (mkSummaryRow net_2024 net_2025 (change net_2025 net_2024)))
    end
  end.

(** ** deploy.py *)

(** What an entry of the directory is: a regular file, a directory, something
    else that exists (a socket, a device), or a link to nothing, for which
    [exists()], [is_file()] and [is_dir()] are all false. *)
Inductive kind := IsFile | IsDir | IsOther | IsBroken.

(** An entry of the current directory; [removable] tells whether [unlink] or
    [shutil.rmtree] succeeds on it. *)
Record item := mkItem {
  item_name : string;
  item_kind : kind;
  removable : bool
}.

Definition keep_files : list string :=
  ["index.html"; "README.md"; ".gitignore"; "requirements.txt";
   "generate_static_dashboard.py"; "official_data_processor.py"; "deploy.py"]%string.

Definition keep_dirs : list string := ["docs"; ".git"]%string.

Definition startswith_dot (name : string) : bool := String.prefix "." name.

Definition name_in (name : string) (names : list string) : bool :=
  existsb (String.eqb name) names.

(** The body of the loop of [clean_for_deployment] on one entry: true when
    the entry is removed. *)
Definition removes (it : item) : bool :=
  if startswith_dot (item_name it) && negb (String.eqb (item_name it) ".gitignore")
  then false
  else match item_kind it with
       | IsFile => if negb (name_in (item_name it) keep_files) then removable it else false
       | IsDir =>
           if negb (name_in (item_name it) keep_dirs) && negb (startswith_dot (item_name it))
           then removable it else false
       | IsOther | IsBroken => false
       end.

(** [clean_for_deployment]: the count it returns and the directory it
    leaves. *)
Definition clean_for_deployment (dir : list item) : nat * list item :=
  fold_left
    (fun (st : nat * list item) it =>
       if removes it then (S (fst st), snd st) else (fst st, snd st ++ [it]))
    dir (0%nat, []).

Definition required_files : list string := ["index.html"; "README.md"; ".gitignore"]%string.

(** [Path(name).exists()] *)
Definition path_exists (dir : list item) (name : string) : bool :=
  existsb (fun it => String.eqb (item_name it) name
                     && match item_kind it with IsBroken => false | _ => true end)
    dir.

(** [verify_deployment_files] *)
Definition verify_deployment_files (dir : list item) : bool :=
  fold_left (fun all_present file => if path_exists dir file then all_present else false)
    required_files true.

Inductive deployment := NoIndex | Ready | MissingFiles.

(** [main]: what it reports and the directory it leaves. *)
Definition main (dir : list item) : deployment * list item :=
  if negb (path_exists dir "index.html") then (NoIndex, dir)
  else
    let '(removed, remaining) := clean_for_deployment dir in
    if verify_deployment_files remaining then (Ready, remaining)
    else (MissingFiles, remaining).

(** The workbook the loader reads. *)
Definition workbook_name : string := "blancosy book of accounts 2025.xlsx".

(** ** Definitions used to state the properties *)

(** The criteria as the claim words them: an omitted criterion and a ['both']
    match every record; any other criterion that is supplied matches the
    records that meet it. *)
Definition claimed_matches (year : option year_arg) (categories : option (list string))
    (transaction_type : option string) (t : Transaction) : bool :=
  match year with
  | None => true
  | Some (YearInt y) => (Year t =? y)%Z
  | Some (YearStr s) => String.eqb s "both"
  end
  && match categories with
     | None => true
     | Some cs => existsb (String.eqb (Category t)) cs
     end
  && match transaction_type with
     | None => true
     | Some s => String.eqb s "both" || String.eqb (Type_ t) s
     end.

(** The criteria as amended: an omitted criterion, a ['both'], and also a
    supplied value that Python counts as false (year 0, an empty list of
    categories, an empty string) match every record; any other criterion
    matches the records that meet it (none, for a year given as any other
    string: Year is an integer). *)
Definition matches_year (year : option year_arg) (t : Transaction) : bool :=
  match year with
  | None => true
  | Some (YearInt y) => (y =? 0)%Z || (Year t =? y)%Z
  | Some (YearStr s) => String.eqb s "" || String.eqb s "both"
  end.

Definition matches_categories (categories : option (list string)) (t : Transaction)
    : bool :=
  match categories with
  | None | Some [] => true
  | Some cs => existsb (String.eqb (Category t)) cs
  end.

Definition matches_type (transaction_type : option string) (t : Transaction) : bool :=
  match transaction_type with
  | None => true
  | Some s => String.eqb s "" || String.eqb s "both" || String.eqb (Type_ t) s
  end.

Definition matches (year : option year_arg) (categories : option (list string))
    (transaction_type : option string) (t : Transaction) : bool :=
  matches_year year t && matches_categories categories t
  && matches_type transaction_type t.

(** The frames a source appended and whether it set the flag. *)
Definition frames_of (s : string * M unit) : list frame := all_data (snd (snd s)).
Definition reached_success (s : string * M unit) : bool := success (snd (snd s)).

(** A source loaded when its [try] body ran to its end. *)
Definition loaded (s : string * M unit) : bool := is_ok (fst (snd s)).

(** The sources whose records the code keeps only when the amount is
    positive: the official 2024 figures, Utilities and the two Savings
    frames. *)
Definition amount_checked (t : Transaction) : bool :=
  (Year t =? 2024)%Z
  || existsb (String.eqb (Category t)) ["Utilities"; "Savings"; "Savings Withdrawal"]%string.

Definition well_formed (t : Transaction) : Prop :=
  In (Category t) categories_fixed
  /\ (Type_ t = "Income" \/ Type_ t = "Expense")%string
  /\ (Year t = 2024 \/ Year t = 2025)%Z
  /\ isna (Amount t) = false
  /\ (amount_checked t = true -> (0 <? Amount t)%float = true).

(** The generator after a [load_data] that succeeded. *)
Definition loaded_generator (pd : coercions) (file : option workbook)
    : StaticDashboardGenerator :=
  mkGenerator (mkProcessor (Some (ledger pd file))) (Some (ledger pd file))
    (Some get_official_2024_summary).

(** Whether the ledger has a record of 2025. *)
Definition has_2025 (pd : coercions) (file : option workbook) : bool :=
  existsb (Z.eqb 2025) (map Year (ledger pd file)).

(** The error a failed body raised, as [logger.error] records it. *)
Definition failure_of (s : string * M unit) : list (string * error) :=
  match fst (snd s) with
  | Ok _ => []
  | Raise e => [(fst s, e)]
  end.

(** The workbook with another rent sheet. *)
Definition with_rent (wb : workbook) (df : sheet) : workbook :=
  mkWorkbook (Sales wb) (Labour wb) (Some df) (Purchase_of_stock wb) (Utilities wb)
    (Saving wb) (Expense wb).

(** ** Concrete inputs *)

(** A pandas that parses no text and coerces nothing of the wrong kind. *)
Definition no_coercion : coercions :=
  {| text_to_float := fun _ => nan;
     text_to_date := fun _ => None;
     day_to_float := fun _ => nan;
     float_to_date := fun _ => None |}.

(** The processor after a load with the workbook file absent: the ledger is
    built from the official 2024 figures alone. *)
Definition official_only : processor :=
  snd (load_and_clean_data no_coercion None new_processor).

Definition official_ledger : frame :=
  [sales_data; cogs_data] ++ map expense_data expenses_2024.

Definition kpis_2024 (self : processor) : kpis :=
  calculate_kpis (filter_data self (Some (YearInt 2024)) None None).

Definition jan15 : cell := Day (mkDate 2025 1 15).

Definition five_columns : list string := ["A"; "B"; "C"; "D"; "E"]%string.

Definition all_columns : list column :=
  [TranDate; Withdrawals; Deposits; TransactionNarrative].

Definition no_sheets : workbook :=
  mkWorkbook None None None None None None None.

(** A Sales sheet with one row, a reversal booked as a negative amount. *)
Definition reversal_book : workbook :=
  mkWorkbook
    (Some (mkSheet five_columns [[jan15; Blank; Blank; Num (-5); Str "reversal"]]))
    None None None None None None.

Definition reversal_loaded : processor :=
  snd (load_and_clean_data no_coercion (Some reversal_book) new_processor).


(** The record the Sales block makes of the reversal. *)
Definition reversal_record : Transaction :=
  mkTransaction (Some (mkDate 2025 1 15)) (-5) 2025 "Sales" "Income" (Str "reversal").

(** A workbook with the Saving sheet alone. *)
Definition saving_only (df : tran_sheet) : workbook :=
  mkWorkbook None None None None None (Some df) None.

(** What the Savings block appends for a sheet that has all four columns and
    the one row [r]. *)
Definition savings_row (pd : coercions) (r : tran_row) : frame :=
  List.concat
    (all_data (snd (load_savings pd (Some (saving_only (mkTranSheet all_columns [r])))))).

(** A Saving row that moves money both ways. *)
Definition both_ways : tran_row := mkTranRow jan15 50 100 (Str "transfer").

(** A Saving row with a deposit and no date. *)
Definition undated_deposit : tran_row := mkTranRow Blank nan 100 (Str "deposit").

Definition undated_book : workbook :=
  saving_only (mkTranSheet all_columns [undated_deposit]).

(** A Saving sheet that has no Withdrawals column, with one deposit. *)
Definition dated_deposit : tran_row := mkTranRow jan15 nan 100 (Str "deposit").

Definition no_withdrawals_book : workbook :=
  saving_only (mkTranSheet [TranDate; Deposits; TransactionNarrative] [dated_deposit]).

(** * Properties *)

(** ** Binary64 helpers *)

(** Two floats that [==] tells apart are different values. *)
Lemma float_neq_of_eqb (x y : float) : (x =? y)%float = false -> (y =? y)%float = true -> x <> y.
Proof.
  intros Hxy Hyy Heq. rewrite Heq in Hxy. rewrite Hxy in Hyy. discriminate.
Qed.

(** ** The ledger of the official figures alone *)

Lemma load_without_file (pd : coercions) :
  load_and_clean_data pd None new_processor = (true, mkProcessor (Some official_ledger)).
Proof. reflexivity. Qed.

(** C1, as stated, fails: on the ledger built from the official 2024 figures
    alone, the net profit that [calculate_kpis] computes in binary64 is
    3389075.3500000015, which Python's [==] tells apart from the constant
    3389075.35 of [get_official_2024_summary]. *)
Lemma C1_net_profit_differs :
  net_profit (kpis_2024 official_only) <> o_net_profit get_official_2024_summary
  /\ (net_profit (kpis_2024 official_only) =? o_net_profit get_official_2024_summary)%float
     = false.
Proof.
  split.
  - apply float_neq_of_eqb; vm_compute; reflexivity.
  - vm_compute. reflexivity.
Qed.

(** C1, amended: with the workbook absent the ledger is the six official 2024
    records; [calculate_kpis] on its 2024 part gives total income 22619122,
    total expenses 19230046.65 and a net profit that is the binary64 number
    0x1.9db49acccccd0p+21, three units in the last place (3 / 2^31) above the
    constant of [get_official_2024_summary]; both are within 10^-8 of the
    decimal figure 3,389,075.35, which is what the figures give in exact
    arithmetic. *)
Theorem C1_net_profit_within_rounding (pd : coercions) :
  let self := snd (load_and_clean_data pd None new_processor) in
  let k := kpis_2024 self in
  let official := o_net_profit get_official_2024_summary in
  consolidated_data self = Some official_ledger
  /\ total_income k = 22619122%float
  /\ total_expenses k = 19230046.65%float
  /\ net_profit k = 0x1.9db49acccccd0p+21%float
  /\ (exactQ (net_profit k) - exactQ official == 3 # 2147483648)%Q
  /\ (Qabs (exactQ (net_profit k) - (338907535 # 100)) < 1 # 100000000)%Q
  /\ (Qabs (exactQ official - (338907535 # 100)) < 1 # 100000000)%Q
  /\ (22619122 - 17244564 - 601155 - 192000 - 1028770 - (16355765 # 100)
      == 338907535 # 100)%Q.
Proof.
  cbv zeta. rewrite load_without_file. cbn [snd consolidated_data].
  repeat split; vm_compute; reflexivity.
Qed.

(** ** get_official_2024_summary *)

(** C9, as stated, fails: the two margins are not the percentages of sales,
    23.761... and 14.983..., but the rounded figures 23.8 and 15.0. *)
Lemma C9_margins_are_rounded :
  let s := get_official_2024_summary in
  o_gross_profit_margin s <> (o_gross_profit s / o_sales s * 100)%float
  /\ o_net_profit_margin s <> (o_net_profit s / o_sales s * 100)%float.
Proof.
  split; intro H.
  - apply (f_equal (fun v => (v <? 23.78)%float)) in H. vm_compute in H. discriminate.
  - apply (f_equal (fun v => (v <? 14.99)%float)) in H. vm_compute in H. discriminate.
Qed.

(** C9, amended: gross profit is sales less cost of sales, total operating
    expenses are the sum of the four expense lines, net profit is gross
    profit less total operating expenses, all three exactly in binary64; and
    each margin is the percentage of sales rounded to one decimal place,
    that is within 0.05 of it. *)
Theorem C9_official_summary_consistent :
  let s := get_official_2024_summary in
  o_gross_profit s = (o_sales s - o_cogs s)%float
  /\ o_total_operating_expenses s
     = (o_labour s + o_rent s + o_transport s + o_transaction_costs s)%float
  /\ o_net_profit s = (o_gross_profit s - o_total_operating_expenses s)%float
  /\ (Qabs (exactQ (o_gross_profit_margin s)
            - exactQ (o_gross_profit s) / exactQ (o_sales s) * 100) <= 5 # 100)%Q
  /\ (Qabs (exactQ (o_net_profit_margin s)
            - exactQ (o_net_profit s) / exactQ (o_sales s) * 100) <= 5 # 100)%Q.
Proof.
  cbv zeta. repeat split; vm_compute; try reflexivity; intro H; discriminate H.
Qed.

(** ** calculate_kpis *)

(** ** Series.sum *)

Lemma pairwise_sum_eq (fuel : nat) (a : list float) :
  pairwise_sum fuel a
  = if (List.length a <? 8)%nat then fold_left PrimFloat.add a neg_zero
    else if (List.length a <=? 128)%nat then block_sum a
    else match fuel with
         | O => nan
         | S fuel' =>
             (pairwise_sum fuel' (firstn (List.length a / 2 - (List.length a / 2) mod 8) a)
              + pairwise_sum fuel'
                  (skipn (List.length a / 2 - (List.length a / 2) mod 8) a))%float
         end.
Proof. destruct fuel; reflexivity. Qed.

(** The cutting never runs out of fuel: any fuel that is at least the length
    of the array gives the same sum. *)
Lemma pairwise_sum_fuel (f1 f2 : nat) (a : list float) :
  (List.length a <= f1)%nat -> (List.length a <= f2)%nat ->
  pairwise_sum f1 a = pairwise_sum f2 a.
Proof.
  revert f2 a. induction f1 as [|f1 IH]; intros f2 a H1 H2.
  - rewrite (pairwise_sum_eq 0 a), (pairwise_sum_eq f2 a).
    destruct (Nat.ltb_spec (List.length a) 8) as [_|H8]; [reflexivity | lia].
  - rewrite (pairwise_sum_eq (S f1) a), (pairwise_sum_eq f2 a).
    destruct (Nat.ltb_spec (List.length a) 8) as [_|H8]; [reflexivity|].
    destruct (Nat.leb_spec (List.length a) 128) as [_|H128]; [reflexivity|].
    destruct f2 as [|f2]; [lia|].
    set (n := List.length a) in *.
    assert (Hhalf : (n / 2 <= n - 1)%nat /\ (1 <= n / 2)%nat).
    { pose proof (Nat.div_mod_eq n 2) as E.
      pose proof (Nat.mod_upper_bound n 2 ltac:(lia)). lia. }
    assert (Hmod : ((n / 2) mod 8 < 8)%nat) by (apply Nat.mod_upper_bound; lia).
    assert (Hbig : (8 <= n / 2)%nat).
    { pose proof (Nat.div_mod_eq n 2) as E.
      pose proof (Nat.mod_upper_bound n 2 ltac:(lia)). lia. }
    assert (Hle : ((n / 2) mod 8 <= n / 2)%nat) by (apply Nat.Div0.mod_le).
    f_equal; apply IH; rewrite ?length_firstn, ?length_skipn; fold n; lia.
Qed.



(** Ten values of 0.1 sum to 1.0: eight of them as a tree, then the two left
    over (added left to right they would give 0.99999999999999989). *)
Lemma series_sum_ten_tenths : series_sum (repeat 0.1%float 10) = 1%float.
Proof. reflexivity. Qed.

Lemma calculate_kpis_cons (t : Transaction) (df : frame) :
  calculate_kpis (t :: df)
  = let income := series_sum (amounts (filter (is_type "Income") (t :: df))) in
    let expenses := series_sum (amounts (filter (is_type "Expense") (t :: df))) in
    mkKpis income expenses (income - expenses)
      (if (0 <? income)%float then ((income - expenses) / income * 100)%float
       else 0%float).
Proof. reflexivity. Qed.




(** ** No ledger *)

(** C10: without a consolidated ledger, [filter_data] gives an empty frame
    whatever its arguments, [get_data_summary] the empty dictionary, and
    [calculate_kpis] on an empty frame, such as the one [filter_data]
    gives, four zeros. *)
Theorem C10_no_ledger (self : processor) :
  consolidated_data self = None ->
  (forall year categories transaction_type,
      filter_data self year categories transaction_type = [])
  /\ get_data_summary self = None
  /\ calculate_kpis [] = mkKpis 0 0 0 0
  /\ (forall year categories transaction_type,
         calculate_kpis (filter_data self year categories transaction_type)
         = mkKpis 0 0 0 0).
Proof.
  intro H. unfold filter_data, get_data_summary. rewrite H. repeat split.
Qed.

Lemma C10_no_ledger_witness :
  consolidated_data new_processor = None
  /\ filter_data new_processor (Some (YearInt 2024)) (Some ["Sales"%string]) (Some "Income"%string)
     = []
  /\ get_data_summary new_processor = None.
Proof.
  split; [reflexivity|].
  destruct (C10_no_ledger new_processor eq_refl) as (Hf & Hs & _).
  split; [apply Hf | exact Hs].
Defined.

(** ** Lists: unique, sorted, and the year-wise breakdown *)

Lemma In_unique_Z (x : Z) (l : list Z) : In x (unique Z.eqb l) <-> In x l.
Proof.
  induction l as [|a l IH]; cbn [unique]; [tauto|].
  cbn [In]. rewrite filter_In, IH.
  destruct (Z.eq_dec a x) as [->|Hne]; [tauto|].
  apply Z.eqb_neq in Hne. rewrite Hne. cbn. tauto.
Qed.

Lemma In_insert_sorted {A} (leb : A -> A -> bool) (x a : A) (l : list A) :
  In x (insert_sorted leb a l) <-> x = a \/ In x l.
Proof.
  induction l as [|b l IH]; cbn [insert_sorted].
  - cbn. intuition congruence.
  - destruct (leb a b); cbn [In]; [|rewrite IH]; intuition congruence.
Qed.

Lemma In_sorted {A} (leb : A -> A -> bool) (x : A) (l : list A) :
  In x (sorted leb l) <-> In x l.
Proof.
  unfold sorted. induction l as [|a l IH]; cbn [fold_right]; [tauto|].
  rewrite In_insert_sorted, IH. cbn. intuition congruence.
Qed.

Lemma lookup_year_map (f : Z -> year_entry) (year : Z) (ys : list Z) :
  lookup_year year (map (fun y => (y, f y)) ys)
  = if existsb (Z.eqb year) ys then Some (f year) else None.
Proof.
  unfold lookup_year. induction ys as [|y ys IH]; [reflexivity|].
  cbn [map find fst existsb]. rewrite (Z.eqb_sym year y).
  destruct (Z.eqb_spec y year) as [->|_]; [reflexivity|]. exact IH.
Qed.

Lemma filter_filter {A} (p q : A -> bool) (l : list A) :
  filter p (filter q l) = filter (fun x => q x && p x) l.
Proof.
  induction l as [|a l IH]; [reflexivity|].
  cbn [filter]. destruct (q a); cbn [filter andb]; rewrite IH; reflexivity.
Qed.

Lemma filter_true {A} (l : list A) : filter (fun _ => true) l = l.
Proof. induction l as [|a l IH]; [reflexivity | cbn; now rewrite IH]. Qed.

(** ** filter_data against its description *)

Lemma filter_data_matches (self : processor) (data : frame) year categories transaction_type :
  consolidated_data self = Some data ->
  filter_data self year categories transaction_type
  = filter (matches year categories transaction_type) data.
Proof.
  intro H. unfold filter_data. rewrite H. cbv zeta.
  assert (Hy : (if year_truthy year && negb (year_is_both year)
                then filter (year_eq year) data else data)
               = filter (matches_year year) data).
  { unfold year_truthy, year_is_both, year_eq, matches_year.
    destruct year as [[y|s]|].
    - destruct (y =? 0)%Z; cbn [negb andb orb];
        [symmetry; apply filter_true | reflexivity].
    - destruct (String.eqb s ""); cbn [negb andb orb];
        [symmetry; apply filter_true|].
      destruct (String.eqb s "both"); cbn [negb andb orb];
        [symmetry; apply filter_true|].
      reflexivity.
    - symmetry; apply filter_true. }
  rewrite Hy.
  assert (Hc : forall l, (if list_truthy categories
                          then filter (isin categories) l else l)
                         = filter (matches_categories categories) l).
  { intro l. unfold list_truthy, isin, matches_categories.
    destruct categories as [[|c cs]|];
      [symmetry; apply filter_true | reflexivity | symmetry; apply filter_true]. }
  rewrite Hc.
  assert (Ht : forall l, (if str_truthy transaction_type
                             && negb (str_is_both transaction_type)
                          then filter (type_eq transaction_type) l else l)
                         = filter (matches_type transaction_type) l).
  { intro l. unfold str_truthy, str_is_both, type_eq, matches_type.
    destruct transaction_type as [s|]; [|symmetry; apply filter_true].
    destruct (String.eqb s ""); cbn [negb andb orb];
      [symmetry; apply filter_true|].
    destruct (String.eqb s "both"); cbn [negb andb orb];
      [symmetry; apply filter_true | reflexivity]. }
  rewrite Ht, !filter_filter. apply filter_ext. intro t. unfold matches.
  now rewrite andb_assoc.
Qed.

(** ** The loader monad *)

Lemma try_except_ok (what : string) (body : M unit) : fst (try_except what body) = Ok tt.
Proof. destruct body as [[[]|e] w]; reflexivity. Qed.

Lemma try_except_all_data (what : string) (body : M unit) :
  all_data (snd (try_except what body)) = all_data (snd body).
Proof. destruct body as [[[]|e] w]; cbn; [reflexivity | apply app_nil_r]. Qed.

Lemma try_except_success (what : string) (body : M unit) :
  success (snd (try_except what body)) = success (snd body).
Proof. destruct body as [[[]|e] w]; cbn; [reflexivity | apply orb_false_r]. Qed.

Lemma bind_ok_snd {A B} (m : M A) (a : A) (f : A -> M B) :
  fst m = Ok a -> snd (bind m f) = and_then (snd m) (snd (f a)).
Proof.
  destruct m as [r w]. cbn. intros ->. cbn. destruct (f a). reflexivity.
Qed.

Lemma bind_ok_fst {A B} (m : M A) (a : A) (f : A -> M B) :
  fst m = Ok a -> fst (bind m f) = fst (f a).
Proof.
  destruct m as [r w]. cbn. intros ->. cbn. destruct (f a). reflexivity.
Qed.

Lemma for_each_try (l : list (string * M unit)) :
  let m := for_each l (fun s => try_except (fst s) (snd s)) in
  fst m = Ok tt
  /\ all_data (snd m) = flat_map frames_of l
  /\ success (snd m) = existsb reached_success l.
Proof.
  induction l as [|s l IH]; cbn zeta; [repeat split|].
  cbn [for_each flat_map existsb]. cbv zeta in IH. destruct IH as (IH1 & IH2 & IH3).
  rewrite (bind_ok_fst _ tt), (bind_ok_snd _ tt) by apply try_except_ok.
  cbn [and_then all_data success].
  rewrite try_except_all_data, try_except_success, IH2, IH3. repeat split. exact IH1.
Qed.

(** Runs a loader body: takes the cases of every test the body makes on the
    file, the sheet, the columns and the frames. *)
Ltac run_body :=
  cbn;
  repeat match goal with
         | |- context [match ?x with _ => _ end] =>
             match type of x with
             | option _ => destruct x
             | bool => destruct x
             end; cbn
         end.

Section LoaderFacts.
Variable pd : coercions.
Variable file : option workbook.

Lemma load_all_all_data :
  all_data (snd (load_all pd file)) = flat_map frames_of (sources pd file).
Proof.
  unfold load_all, sources. cbn [flat_map].
  rewrite (bind_ok_snd _ tt) by apply try_except_ok.
  cbn [and_then all_data]. rewrite !try_except_all_data.
  destruct (for_each_try (sheet_sources pd file)) as (_ & -> & _). reflexivity.
Qed.

Lemma load_all_success :
  success (snd (load_all pd file)) = existsb reached_success (sources pd file).
Proof.
  unfold load_all, sources. cbn [existsb].
  rewrite (bind_ok_snd _ tt) by apply try_except_ok.
  cbn [and_then success]. rewrite !try_except_success.
  destruct (for_each_try (sheet_sources pd file)) as (_ & _ & ->). reflexivity.
Qed.

(** Every body sets [success = True] as its last statement: the flag is
    set exactly when the body ran to its end. *)
Lemma reached_success_loaded (s : string * M unit) :
  In s (sources pd file) -> reached_success s = loaded s.
Proof.
  unfold sources, sheet_sources, reached_success, loaded. cbn [In].
  intros [<-|[<-|[<-|[<-|[<-|[<-|[<-|[<-|[]]]]]]]]]; cbn [fst snd]; try reflexivity;
    unfold load_sales, load_rent, load_labour, load_stock, load_other, load_statement,
      load_utilities, load_savings, read_excel, set_columns, need;
    run_body; reflexivity.
Qed.

Lemma load_all_success_loaded :
  success (snd (load_all pd file)) = existsb loaded (sources pd file).
Proof.
  rewrite load_all_success. generalize reached_success_loaded.
  induction (sources pd file) as [|s l IH]; intro H; [reflexivity|].
  cbn [existsb]. rewrite H by (left; reflexivity).
  rewrite IH; [reflexivity|]. intros s' Hs'. apply H. right. exact Hs'.
Qed.

Lemma ledger_official_first :
  exists rest, ledger pd file = official_ledger ++ rest.
Proof.
  unfold ledger. rewrite load_all_all_data. unfold sources. cbn [flat_map].
  rewrite concat_app. eexists. reflexivity.
Qed.

Lemma load_and_clean_data_ledger (self : processor) :
  load_and_clean_data pd file self = (true, mkProcessor (Some (ledger pd file))).
Proof.
  unfold load_and_clean_data, consolidate, ledger.
  assert (Hs : success (snd (load_all pd file)) = true).
  { rewrite load_all_success. reflexivity. }
  assert (Hd : nonempty (all_data (snd (load_all pd file))) = true).
  { rewrite load_all_all_data. reflexivity. }
  rewrite Hs, Hd. reflexivity.
Qed.
End LoaderFacts.

(** ** The value load_and_clean_data returns *)

(** On the workbooks of this model, whose amount columns hold numbers or
    blanks, [load_and_clean_data] returns, and returns true: the value is
    whether some source loaded, which the official 2024 source always does,
    and a ledger of at least its six records is stored. (With a text amount
    kept by the Labour, Purchase of stock or Expense block the call does not
    return: the logging summary after [pd.concat], which no [try] guards,
    raises TypeError. That input is outside the model.) *)
Lemma load_returns_true (pd : coercions) (file : option workbook) (self : processor) :
  let r := load_and_clean_data pd file self in
  fst r = existsb loaded (sources pd file)
  /\ fst r = true
  /\ (exists data, consolidated_data (snd r) = Some data /\ (6 <= List.length data)%nat).
Proof.
  cbv zeta. rewrite load_and_clean_data_ledger. cbn [fst snd consolidated_data].
  split; [reflexivity|]. split; [reflexivity|].
  exists (ledger pd file). split; [reflexivity|].
  destruct (ledger_official_first pd file) as [rest ->].
  rewrite length_app. cbn. lia.
Qed.

(** ** filter_data and the year-wise breakdown *)

Lemma summary_breakdown (self : processor) (data : frame) (year : Z) :
  consolidated_data self = Some data ->
  exists s, get_data_summary self = Some s
    /\ lookup_year year (year_breakdown s)
       = if existsb (Z.eqb year) (map Year data)
         then Some (breakdown_of data year) else None.
Proof.
  intro H. unfold get_data_summary. rewrite H. eexists. split; [reflexivity|].
  cbn [year_breakdown]. rewrite lookup_year_map.
  set (ys := sorted Z.leb (unique Z.eqb (map Year data))).
  assert (Hiff : existsb (Z.eqb year) ys = existsb (Z.eqb year) (map Year data)).
  { apply eq_true_iff_eq. rewrite !existsb_exists. subst ys.
    split; intros (y & Hy & Heq); exists y; split; try exact Heq.
    - now apply In_unique_Z, (In_sorted Z.leb).
    - now apply (In_sorted Z.leb), In_unique_Z. }
  rewrite Hiff. reflexivity.
Qed.

(** C7, as stated, fails: a criterion that is supplied but that Python counts
    as false is not applied. With an empty list of categories supplied, no
    record matches the criterion, and [filter_data] returns the whole
    ledger; the same with the year 0 and with an empty type string. *)
Lemma C7_falsy_criteria_match_all :
  filter (claimed_matches None (Some []) None) official_ledger = []
  /\ filter_data official_only None (Some []) None = official_ledger
  /\ filter (claimed_matches (Some (YearInt 0)) None None) official_ledger = []
  /\ filter_data official_only (Some (YearInt 0)) None None = official_ledger
  /\ filter (claimed_matches None None (Some ""%string)) official_ledger = []
  /\ filter_data official_only None None (Some ""%string) = official_ledger
  /\ filter_data official_only None (Some []) None
     <> filter (claimed_matches None (Some []) None) official_ledger.
Proof. repeat split. discriminate. Qed.

(** C7, amended: on a consolidated ledger, [filter_data(year=2024)] is exactly
    the records whose Year is 2024, in ledger order; it is a subset of the
    ledger; when the ledger has a record of 2024 the summary has an entry
    for 2024 whose 'transactions' is the size of that result (and otherwise
    no entry, the result being empty). In general [filter_data] returns the
    records that match every criterion in force, where an omitted criterion,
    a 'both', and also a supplied value that Python counts as false (year 0,
    an empty list of categories, an empty type string) match every record. *)
Theorem C7_filter_data (self : processor) (data : frame) :
  consolidated_data self = Some data ->
  let result := filter_data self (Some (YearInt 2024)) None None in
  result = filter (fun t => (Year t =? 2024)%Z) data
  /\ (forall t, In t result <-> In t data /\ Year t = 2024%Z)
  /\ incl result data
  /\ (exists s, get_data_summary self = Some s
        /\ (In 2024%Z (map Year data) ->
            exists e, lookup_year 2024 (year_breakdown s) = Some e
                      /\ transactions e = List.length result)
        /\ (~ In 2024%Z (map Year data) ->
            lookup_year 2024 (year_breakdown s) = None /\ result = []))
  /\ (forall year categories transaction_type,
         filter_data self year categories transaction_type
         = filter (matches year categories transaction_type) data)
  /\ filter_data self None None None = data
  /\ filter_data self (Some (YearStr "both")) None (Some "both"%string) = data.
Proof.
  intro H. cbv zeta.
  assert (H24 : filter_data self (Some (YearInt 2024)) None None
                = filter (fun t => (Year t =? 2024)%Z) data).
  { rewrite (filter_data_matches self data) by exact H. apply filter_ext.
    intro t. unfold matches. cbn. now rewrite !andb_true_r. }
  rewrite H24. split; [reflexivity|]. split.
  { intro t. rewrite filter_In, Z.eqb_eq. tauto. }
  split.
  { intros t Ht. apply filter_In in Ht. tauto. }
  split.
  { destruct (summary_breakdown self data 2024 H) as (s & Hs & Hl).
    exists s. split; [exact Hs|]. split.
    - intro Hin. exists (breakdown_of data 2024). split; [|reflexivity].
      rewrite Hl. replace (existsb (Z.eqb 2024) (map Year data)) with true; [reflexivity|].
      symmetry. apply existsb_exists. exists 2024%Z. split; [exact Hin | reflexivity].
    - intro Hnot. split.
      + rewrite Hl. destruct (existsb (Z.eqb 2024) (map Year data)) eqn:E; [|reflexivity].
        apply existsb_exists in E. destruct E as (y & Hy & Heq).
        apply Z.eqb_eq in Heq. subst y. contradiction.
      + destruct (filter (fun t => (Year t =? 2024)%Z) data) as [|t l] eqn:E; [reflexivity|].
        assert (Ht : In t (filter (fun t => (Year t =? 2024)%Z) data))
          by (rewrite E; left; reflexivity).
        apply filter_In in Ht. destruct Ht as [Ht1 Ht2]. apply Z.eqb_eq in Ht2.
        exfalso. apply Hnot. rewrite <- Ht2. now apply in_map. }
  split; [intros; now apply filter_data_matches|]. split.
  - rewrite (filter_data_matches self data) by exact H. apply filter_true.
  - rewrite (filter_data_matches self data) by exact H. apply filter_true.
Qed.

Lemma C7_filter_data_witness :
  consolidated_data official_only = Some official_ledger
  /\ filter_data official_only (Some (YearInt 2024)) None None
     = filter (fun t => (Year t =? 2024)%Z) official_ledger.
Proof.
  split; [reflexivity|].
  apply (C7_filter_data official_only official_ledger). reflexivity.
Defined.

(** Every ledger that [load_and_clean_data] makes has the six 2024 records,
    so its summary has the 2024 entry. *)
Lemma loaded_ledger_has_2024 (pd : coercions) (file : option workbook) :
  In 2024%Z (map Year (ledger pd file)).
Proof.
  destruct (ledger_official_first pd file) as [rest ->]. left. reflexivity.
Qed.

(** ** What every record of the ledger satisfies *)

(** A float that is greater than 0 is not NaN. *)
Lemma positive_notna (x : float) : (0 <? x)%float = true -> isna x = false.
Proof.
  intro H. unfold isna, PrimFloat.is_nan.
  rewrite FloatAxioms.eqb_spec. rewrite FloatAxioms.ltb_spec in H.
  unfold SFltb in H. unfold SFeqb.
  destruct (Prim2SF x) as [s|s| |s m e]; cbn in *.
  - reflexivity.
  - destruct s; reflexivity.
  - replace (Prim2SF 0) with (S754_zero false) in H by reflexivity. discriminate.
  - destruct s; rewrite Z.compare_refl; rewrite ?Pos.compare_refl; reflexivity.
Qed.

Ltac well_formed_now :=
  unfold well_formed, categories_fixed; cbn;
  repeat split; auto 15; try (vm_compute; reflexivity); try discriminate.

Lemma Forall_map_filter {A B} (P : B -> Prop) (f : A -> B) (keep : A -> bool) (l : list A) :
  (forall a, keep a = true -> P (f a)) -> Forall P (map f (filter keep l)).
Proof.
  intro H. apply Forall_forall. intros b Hb.
  apply in_map_iff in Hb. destruct Hb as (a & <- & Ha).
  apply filter_In in Ha. apply H. tauto.
Qed.

Ltac frames_done := repeat (apply Forall_cons || apply Forall_nil).

Section WellFormed.
Variable pd : coercions.

Lemma official_well_formed : Forall well_formed official_ledger.
Proof. repeat apply Forall_cons; try apply Forall_nil; well_formed_now. Qed.

Lemma sales_rows_well_formed (df : sheet) : Forall well_formed (sales_rows pd df).
Proof.
  apply Forall_map_filter. intros row H. apply andb_true_iff in H. destruct H as [_ H].
  apply negb_true_iff in H. well_formed_now.
Qed.

Lemma rent_rows_well_formed (df : sheet) : Forall well_formed (rent_rows pd df).
Proof.
  apply Forall_map_filter. intros row H. apply andb_true_iff in H. destruct H as [_ H].
  apply negb_true_iff in H. well_formed_now.
Qed.

Lemma statement_rows_well_formed (amount : tran_row -> float) (category : string)
    (df : tran_sheet) :
  In category ["Labour"; "Stock Purchase"; "Other Expenses"]%string ->
  Forall well_formed (statement_rows pd amount category df).
Proof.
  intro Hc. apply Forall_map_filter. intros r H. apply andb_true_iff in H.
  destruct H as [_ H]. apply negb_true_iff in H.
  cbn in Hc. destruct Hc as [<-|[<-|[<-|[]]]]; well_formed_now.
Qed.

Lemma utilities_rows_well_formed (df : tran_sheet) :
  Forall well_formed (utilities_rows pd df).
Proof.
  apply Forall_map_filter. intros r H. pose proof (positive_notna _ H).
  well_formed_now.
Qed.

Lemma income_df_well_formed (df : tran_sheet) : Forall well_formed (income_df pd df).
Proof.
  apply Forall_map_filter. intros r H. apply andb_true_iff in H. destruct H as [_ H].
  pose proof (positive_notna _ H). well_formed_now.
Qed.

Lemma expense_df_well_formed (df : tran_sheet) : Forall well_formed (expense_df pd df).
Proof.
  apply Forall_map_filter. intros r H. apply andb_true_iff in H. destruct H as [_ H].
  pose proof (positive_notna _ H). well_formed_now.
Qed.

Variable file : option workbook.

Lemma frames_well_formed (s : string * M unit) :
  In s (sources pd file) -> Forall (Forall well_formed) (frames_of s).
Proof.
  pose proof official_well_formed as Hoff.
  unfold sources, sheet_sources, frames_of. cbn [In].
  intros [<-|[<-|[<-|[<-|[<-|[<-|[<-|[<-|[]]]]]]]]]; cbn [fst snd].
  - repeat (apply Forall_cons_iff in Hoff; destruct Hoff as [? Hoff]).
    frames_done; assumption.
  - unfold load_sales, read_excel, set_columns. run_body; frames_done.
    apply sales_rows_well_formed.
  - unfold load_labour, load_statement, read_excel, need. run_body; frames_done.
    apply statement_rows_well_formed. cbn. auto.
  - unfold load_rent, read_excel, set_columns. run_body; frames_done.
    apply rent_rows_well_formed.
  - unfold load_stock, load_statement, read_excel, need. run_body; frames_done.
    apply statement_rows_well_formed. cbn. auto.
  - unfold load_utilities, read_excel, need. run_body; frames_done.
    apply utilities_rows_well_formed.
  - unfold load_savings, read_excel, need.
    destruct file as [wb|]; [|frames_done].
    destruct (Saving wb) as [df|]; [|frames_done].
    pose proof (income_df_well_formed df). pose proof (expense_df_well_formed df).
    run_body; frames_done; assumption.
  - unfold load_other, load_statement, read_excel, need. run_body; frames_done.
    apply statement_rows_well_formed. cbn. auto.
Qed.

Lemma ledger_well_formed : Forall well_formed (ledger pd file).
Proof.
  unfold ledger. rewrite load_all_all_data. apply Forall_concat.
  apply Forall_flat_map. apply Forall_forall. exact frames_well_formed.
Qed.
End WellFormed.

(** C2, as stated, fails: the Sales block keeps any amount that parses, so a
    reversal of -5 on the Sales sheet is a record of the ledger whose Amount
    is below 0. *)
Lemma C2_negative_amount_kept :
  consolidated_data reversal_loaded = Some (ledger no_coercion (Some reversal_book))
  /\ In reversal_record (ledger no_coercion (Some reversal_book))
  /\ (0 <=? Amount reversal_record)%float = false
  /\ ~ (forall t, In t (ledger no_coercion (Some reversal_book)) ->
                  (0 <=? Amount t)%float = true).
Proof.
  assert (Hin : In reversal_record (ledger no_coercion (Some reversal_book))).
  { vm_compute. do 6 right. left. reflexivity. }
  split; [reflexivity|]. split; [exact Hin|]. split; [reflexivity|].
  intro H. specialize (H reversal_record Hin). vm_compute in H. discriminate.
Qed.

(** C2, amended: every record of the ledger that [load_and_clean_data]
    produces has a Category of the fixed label set, a Type that is Income or
    Expense, a Year that is 2024 or 2025 and an Amount that is not missing
    (not NaN); the Amount is greater than 0 for the records of the official
    2024 figures, of Utilities and of the two Savings categories, the sources
    whose amounts the code tests. *)
Theorem C2_ledger_records (pd : coercions) (file : option workbook) (self : processor)
    (t : Transaction) :
  In t (ledger pd file) ->
  consolidated_data (snd (load_and_clean_data pd file self)) = Some (ledger pd file)
  /\ In (Category t) categories_fixed
  /\ (Type_ t = "Income" \/ Type_ t = "Expense")%string
  /\ (Year t = 2024 \/ Year t = 2025)%Z
  /\ isna (Amount t) = false
  /\ (amount_checked t = true -> (0 <? Amount t)%float = true).
Proof.
  intro Hin. split; [now rewrite load_and_clean_data_ledger|].
  pose proof (ledger_well_formed pd file) as Hall.
  rewrite Forall_forall in Hall. exact (Hall t Hin).
Qed.

Lemma C2_ledger_records_witness :
  In cogs_data (ledger no_coercion (Some reversal_book))
  /\ In (Category cogs_data) categories_fixed
  /\ (0 <? Amount cogs_data)%float = true.
Proof.
  assert (Hin : In cogs_data (ledger no_coercion (Some reversal_book))).
  { vm_compute. right. left. reflexivity. }
  split; [exact Hin|].
  destruct (C2_ledger_records no_coercion (Some reversal_book) new_processor cogs_data Hin)
    as (_ & Hc & _ & _ & _ & Hp).
  split; [exact Hc | apply Hp; reflexivity].
Defined.

(** ** The Savings sheet, row by row *)

Lemma nonempty_false {A} (l : list A) : nonempty l = false -> l = [].
Proof. destruct l; [reflexivity | discriminate]. Qed.

(** The test the code makes for a deposit is the test "Deposits > 0":
    a NaN is not greater than 0. *)
Lemma is_deposit_positive (r : tran_row) : is_deposit r = (0 <? deposits r)%float.
Proof.
  unfold is_deposit, notna. destruct (0 <? deposits r)%float eqn:E.
  - now rewrite (positive_notna _ E).
  - apply andb_false_r.
Qed.

Lemma is_withdrawal_positive (r : tran_row) : is_withdrawal r = (0 <? withdrawals r)%float.
Proof.
  unfold is_withdrawal, notna. destruct (0 <? withdrawals r)%float eqn:E.
  - now rewrite (positive_notna _ E).
  - apply andb_false_r.
Qed.

Lemma load_savings_complete (pd : coercions) (wb : workbook) (df : tran_sheet) :
  Saving wb = Some df -> (forall c, need df c = Ok tt) ->
  fst (load_savings pd (Some wb)) = Ok tt
  /\ List.concat (all_data (snd (load_savings pd (Some wb))))
     = income_df pd df ++ expense_df pd df.
Proof.
  intros Hs Hn. unfold load_savings, read_excel. rewrite Hs.
  unfold bind, lift. cbn beta iota. rewrite !Hn.
  destruct (nonempty (income_df pd df)) eqn:Ei;
    destruct (nonempty (expense_df pd df)) eqn:Ee; cbn;
    rewrite ?(nonempty_false _ Ei), ?(nonempty_false _ Ee), ?app_nil_r;
    split; reflexivity.
Qed.

Lemma savings_row_cases (pd : coercions) (r : tran_row) :
  savings_row pd r
  = (if is_deposit r then [savings_income pd r] else [])
    ++ (if is_withdrawal r then [savings_expense pd r] else []).
Proof.
  unfold savings_row.
  destruct (load_savings_complete pd (saving_only (mkTranSheet all_columns [r]))
              (mkTranSheet all_columns [r]) eq_refl) as [_ ->].
  - intros []; reflexivity.
  - unfold income_df, expense_df. cbn [trows filter].
    destruct (is_deposit r), (is_withdrawal r); reflexivity.
Qed.

Lemma savings_by_row (pd : coercions) (l : list tran_row) :
  Permutation (map (savings_income pd) (filter is_deposit l)
               ++ map (savings_expense pd) (filter is_withdrawal l))
              (flat_map (savings_row pd) l).
Proof.
  induction l as [|r l IH]; [constructor|].
  cbn [flat_map filter]. rewrite savings_row_cases.
  destruct (is_deposit r), (is_withdrawal r); cbn [map app].
  - constructor. apply Permutation_sym.
    apply Permutation_cons_app. apply Permutation_sym. exact IH.
  - constructor. exact IH.
  - apply Permutation_sym. apply Permutation_cons_app. apply Permutation_sym. exact IH.
  - exact IH.
Qed.

(** C3, as stated, fails: a Saving row with a positive deposit and a
    positive withdrawal is in both selections, and produces an Income record
    and an Expense record. *)
Lemma C3_row_produces_both :
  savings_row no_coercion both_ways
  = [savings_income no_coercion both_ways; savings_expense no_coercion both_ways]
  /\ (exists a b, In a (savings_row no_coercion both_ways)
                  /\ In b (savings_row no_coercion both_ways)
                  /\ Type_ a = "Income"%string /\ Type_ b = "Expense"%string).
Proof.
  split; [reflexivity|].
  exists (savings_income no_coercion both_ways), (savings_expense no_coercion both_ways).
  repeat split; vm_compute; auto.
Qed.

(** C3, amended: a Saving sheet that has its columns loads, and what it adds
    to the ledger is, up to order, what its rows add one by one; a row with a
    positive deposit and no positive withdrawal adds exactly one record,
    Income of category Savings; a row with a positive withdrawal and no
    positive deposit adds exactly one record, Expense of category Savings
    Withdrawal; a row with neither adds none; a row with both adds both, one
    of each kind. *)
Theorem C3_savings_rows (pd : coercions) (wb : workbook) (df : tran_sheet) :
  Saving wb = Some df -> (forall c, need df c = Ok tt) ->
  fst (load_savings pd (Some wb)) = Ok tt
  /\ Permutation (List.concat (all_data (snd (load_savings pd (Some wb)))))
                 (flat_map (savings_row pd) (trows df))
  /\ (forall r,
         Type_ (savings_income pd r) = "Income"%string
         /\ Category (savings_income pd r) = "Savings"%string
         /\ Type_ (savings_expense pd r) = "Expense"%string
         /\ Category (savings_expense pd r) = "Savings Withdrawal"%string)
  /\ (forall r, (0 <? deposits r)%float = true -> (0 <? withdrawals r)%float = false ->
                savings_row pd r = [savings_income pd r])
  /\ (forall r, (0 <? deposits r)%float = false -> (0 <? withdrawals r)%float = true ->
                savings_row pd r = [savings_expense pd r])
  /\ (forall r, (0 <? deposits r)%float = false -> (0 <? withdrawals r)%float = false ->
                savings_row pd r = [])
  /\ (forall r, (0 <? deposits r)%float = true -> (0 <? withdrawals r)%float = true ->
                savings_row pd r = [savings_income pd r; savings_expense pd r]).
Proof.
  intros Hs Hn. destruct (load_savings_complete pd wb df Hs Hn) as [Hok Hout].
  split; [exact Hok|]. split.
  { rewrite Hout. apply savings_by_row. }
  split; [intro r; repeat split|].
  repeat split; intros r Hd Hw; rewrite savings_row_cases,
    is_deposit_positive, is_withdrawal_positive, Hd, Hw; reflexivity.
Qed.

Lemma C3_savings_rows_witness :
  Saving undated_book = Some (mkTranSheet all_columns [undated_deposit])
  /\ (0 <? deposits undated_deposit)%float = true
  /\ (0 <? withdrawals undated_deposit)%float = false
  /\ savings_row no_coercion undated_deposit = [savings_income no_coercion undated_deposit].
Proof.
  split; [reflexivity|]. split; [reflexivity|]. split; [reflexivity|].
  assert (Hn : forall c, need (mkTranSheet all_columns [undated_deposit]) c = Ok tt)
    by (intros []; reflexivity).
  destruct (C3_savings_rows no_coercion undated_book _ eq_refl Hn)
    as (_ & _ & _ & H & _).
  apply H; reflexivity.
Defined.

(** ** Rows without a date or an amount *)

Lemma filter_drop {A} (keep : A -> bool) (l1 l2 : list A) (a : A) :
  keep a = false -> filter keep (l1 ++ a :: l2) = filter keep (l1 ++ l2).
Proof. intro H. rewrite !filter_app. cbn [filter]. now rewrite H. Qed.

(** In the Sales block a row whose date or amount is missing or does not
    parse leaves no trace: with the dates parsed cell by cell, the frame is
    the one of the sheet without it. *)
Lemma sales_row_dropped (pd : coercions) (h : list string) (l1 l2 : list (list cell))
    (row : list cell) :
  to_datetime pd (at_col 0 row) = None \/ isna (to_numeric pd (at_col 3 row)) = true ->
  sales_rows pd (mkSheet h (l1 ++ row :: l2)) = sales_rows pd (mkSheet h (l1 ++ l2)).
Proof.
  intro H. unfold sales_rows. cbn [rows]. rewrite filter_drop; [reflexivity|].
  unfold notna. destruct H as [-> | ->]; [reflexivity | apply andb_false_r].
Qed.

(** The same in the Labour, Purchase of stock and Expense blocks, for a
    missing or unparseable date and for a missing amount. *)
Lemma statement_row_dropped (pd : coercions) (amount : tran_row -> float)
    (category : string) (cs : list column) (l1 l2 : list tran_row) (r : tran_row) :
  to_datetime pd (tran_date r) = None \/ isna (amount r) = true ->
  statement_rows pd amount category (mkTranSheet cs (l1 ++ r :: l2))
  = statement_rows pd amount category (mkTranSheet cs (l1 ++ l2)).
Proof.
  intro H. unfold statement_rows. cbn [trows]. rewrite filter_drop; [reflexivity|].
  unfold notna. destruct H as [-> | ->]; [reflexivity | apply andb_false_r].
Qed.

(** The same in the Utilities block, for a missing or unparseable date. *)
Lemma utilities_row_dropped (pd : coercions) (cs : list column)
    (l1 l2 : list tran_row) (r : tran_row) :
  to_datetime pd (tran_date r) = None ->
  utilities_rows pd (mkTranSheet cs (l1 ++ r :: l2))
  = utilities_rows pd (mkTranSheet cs (l1 ++ l2)).
Proof.
  intro H. unfold utilities_rows. cbn [trows]. rewrite filter_drop; [reflexivity|].
  now rewrite H.
Qed.

(** C5 fails on the Saving sheet, which alone never drops the rows without a
    date: a row with a deposit of 100 and a blank date loads, and is in the
    ledger as an Income record of category Savings whose Date is NaT. *)
Theorem C5_undated_saving_kept (pd : coercions) :
  to_datetime pd (tran_date undated_deposit) = None
  /\ fst (load_savings pd (Some undated_book)) = Ok tt
  /\ ledger pd (Some undated_book)
     = official_ledger
       ++ [mkTransaction None 100 2025 "Savings" "Income" (Str "deposit")].
Proof. repeat split. Qed.

(** ** A source that fails *)

(** Every block but the Savings one appends its frame as its last step that
    can fail: when it raises, it has appended nothing. *)
Lemma failed_source_contributes_nothing (pd : coercions) (file : option workbook)
    (s : string * M unit) :
  In s (sources pd file) -> fst s <> "Savings 2025"%string -> loaded s = false ->
  frames_of s = [].
Proof.
  unfold sources, sheet_sources, frames_of, loaded. cbn [In].
  intros [<-|[<-|[<-|[<-|[<-|[<-|[<-|[<-|[]]]]]]]]]; cbn [fst snd]; intro Hname;
    try (exfalso; apply Hname; reflexivity);
    unfold load_sales, load_rent, load_labour, load_stock, load_other, load_statement,
      load_utilities, read_excel, set_columns, need;
    run_body; intro H; try reflexivity; discriminate H.
Qed.

(** C6 fails on the Saving sheet: with the Withdrawals column missing and one
    positive deposit, the Savings block raises KeyError after it has appended
    the frame of deposits, so the source that failed has a record in the
    ledger, which is not the ledger of the workbook without that sheet. The
    other sources were all tried. *)
Theorem C6_failed_savings_contributes (pd : coercions) :
  fst (load_savings pd (Some no_withdrawals_book)) = Raise (KeyError "Withdrawals")
  /\ loaded ("Savings 2025"%string, load_savings pd (Some no_withdrawals_book)) = false
  /\ ledger pd (Some no_withdrawals_book)
     = official_ledger
       ++ [mkTransaction (Some (mkDate 2025 1 15)) 100 2025 "Savings" "Income"
             (Str "deposit")]
  /\ ledger pd (Some no_sheets) = official_ledger
  /\ map fst (errors (snd (load_all pd (Some no_withdrawals_book))))
     = ["Sales 2025"; "Labour 2025"; "Rent 2025"; "Stock Purchase 2025";
        "Utilities 2025"; "Savings 2025"; "Other Expenses 2025"]%string.
Proof. repeat split. Qed.

(** * Further properties of the loader *)

Lemma Forall_map_const {A B} (P : B -> Prop) (f : A -> B) (l : list A) :
  (forall a, P (f a)) -> Forall P (map f l).
Proof. intro H. apply Forall_forall. intros b Hb. apply in_map_iff in Hb.
  destruct Hb as (a & <- & _). apply H. Qed.

Section LoaderMore.
Variable pd : coercions.
Variable file : option workbook.

(** Every record that comes from a sheet is a record of 2025. *)
Lemma sheet_frames_2025 (s : string * M unit) :
  In s (sheet_sources pd file) ->
  Forall (Forall (fun t => Year t = 2025%Z)) (frames_of s).
Proof.
  unfold sheet_sources, frames_of. cbn [In].
  intros [<-|[<-|[<-|[<-|[<-|[<-|[<-|[]]]]]]]]; cbn [fst snd];
    unfold load_sales, load_rent, load_labour, load_stock, load_other, load_statement,
      load_utilities, load_savings, read_excel, set_columns, need;
    run_body; frames_done;
    (apply Forall_map_const; intro; reflexivity).
Qed.

Lemma ledger_split :
  ledger pd file
  = official_ledger ++ List.concat (flat_map frames_of (sheet_sources pd file)).
Proof.
  unfold ledger. rewrite load_all_all_data. unfold sources. cbn [flat_map].
  rewrite concat_app. reflexivity.
Qed.

Lemma sheet_records_2025 :
  Forall (fun t => Year t = 2025%Z)
    (List.concat (flat_map frames_of (sheet_sources pd file))).
Proof.
  apply Forall_concat. apply Forall_flat_map. apply Forall_forall.
  exact sheet_frames_2025.
Qed.

Lemma filter_none {A} (p : A -> bool) (l : list A) :
  Forall (fun a => p a = false) l -> filter p l = [].
Proof.
  induction 1 as [|a l Ha _ IH]; [reflexivity|]. cbn [filter]. now rewrite Ha.
Qed.

Lemma ledger_2024 :
  filter (fun t => (Year t =? 2024)%Z) (ledger pd file) = official_ledger.
Proof.
  rewrite ledger_split, filter_app.
  rewrite (filter_none _ (List.concat _)).
  - reflexivity.
  - eapply Forall_impl; [|exact sheet_records_2025].
    intros t Ht. cbn beta. rewrite Ht. reflexivity.
Qed.

Lemma ledger_2024_figures (self : processor) :
  let p := snd (load_and_clean_data pd file self) in
  filter_data p (Some (YearInt 2024)) None None = official_ledger
  /\ calculate_kpis (filter_data p (Some (YearInt 2024)) None None)
     = mkKpis 22619122 19230046.65 0x1.9db49acccccd0p+21 14.983231223563855
  /\ (exists s, get_data_summary p = Some s
        /\ lookup_year 2024 (year_breakdown s)
           = Some (mkYearEntry 6 22619122 19230046.65)).
Proof.
  cbv zeta. rewrite load_and_clean_data_ledger. cbn [snd].
  assert (Hc : consolidated_data (mkProcessor (Some (ledger pd file)))
               = Some (ledger pd file)) by reflexivity.
  assert (Hf : filter_data (mkProcessor (Some (ledger pd file)))
                 (Some (YearInt 2024)) None None = official_ledger).
  { rewrite (filter_data_matches _ _ _ _ _ Hc). rewrite <- ledger_2024.
    apply filter_ext. intro t. unfold matches. cbn. now rewrite !andb_true_r. }
  split; [exact Hf|]. split; [rewrite Hf; vm_compute; reflexivity|].
  destruct (summary_breakdown _ _ 2024 Hc) as (s & Hs & Hl).
  exists s. split; [exact Hs|]. rewrite Hl.
  replace (existsb (Z.eqb 2024) (map Year (ledger pd file))) with true.
  - unfold breakdown_of. rewrite ledger_2024. vm_compute. reflexivity.
  - symmetry. apply existsb_exists. exists 2024%Z. split; [|reflexivity].
    apply loaded_ledger_has_2024.
Qed.
End LoaderMore.

(** X1: whatever the workbook holds, the 2024 part of the ledger is exactly
    the six official records, in order: [filter_data(year=2024)] returns
    them, their KPIs are the fixed official ones, and the 2024 entry of the
    year-wise breakdown is 6 transactions, income 22619122, expenses
    19230046.65. The ledger is the official records followed by the records
    of the sheets, and every record that comes from a sheet is a record of
    2025: no sheet can add to or change the 2024 figures. *)
Theorem official_2024_part_fixed (pd : coercions) (file : option workbook) (self : processor) :
  let p := snd (load_and_clean_data pd file self) in
  let from_sheets := List.concat (flat_map frames_of (sheet_sources pd file)) in
  filter_data p (Some (YearInt 2024)) None None = official_ledger
  /\ calculate_kpis (filter_data p (Some (YearInt 2024)) None None)
     = mkKpis 22619122 19230046.65 0x1.9db49acccccd0p+21 14.983231223563855
  /\ (exists s, get_data_summary p = Some s
        /\ lookup_year 2024 (year_breakdown s)
           = Some (mkYearEntry 6 22619122 19230046.65))
  /\ consolidated_data p = Some (official_ledger ++ from_sheets)
  /\ Forall (fun t => Year t = 2025%Z) from_sheets.
Proof.
  cbv zeta. destruct (ledger_2024_figures pd file self) as (H1 & H2 & H3).
  split; [exact H1|]. split; [exact H2|]. split; [exact H3|]. split.
  - rewrite load_and_clean_data_ledger. cbn [snd consolidated_data].
    now rewrite ledger_split.
  - apply sheet_records_2025.
Qed.

(** ** What is logged *)

Lemma try_except_errors (what : string) (body : M unit) :
  errors (snd (try_except what body)) = errors (snd body) ++ failure_of (what, body).
Proof.
  unfold failure_of. destruct body as [[[]|e] w]; cbn; [now rewrite app_nil_r | reflexivity].
Qed.

Lemma for_each_try_errors (l : list (string * M unit)) :
  (forall s, In s l -> errors (snd (snd s)) = []) ->
  errors (snd (for_each l (fun s => try_except (fst s) (snd s)))) = flat_map failure_of l.
Proof.
  induction l as [|s l IH]; intro H; [reflexivity|].
  cbn [for_each flat_map].
  rewrite (bind_ok_snd _ tt) by apply try_except_ok.
  cbn [and_then errors]. rewrite try_except_errors, IH.
  - rewrite H by (left; reflexivity). destruct s. reflexivity.
  - intros s' Hs'. apply H. right. exact Hs'.
Qed.

Lemma failure_of_length (l : list (string * M unit)) :
  (List.length (flat_map failure_of l)
   + List.length (filter loaded l) = List.length l)%nat.
Proof.
  induction l as [|s l IH]; [reflexivity|].
  cbn [flat_map filter]. rewrite length_app. unfold failure_of at 1.
  replace (loaded s) with (is_ok (fst (snd s))) by reflexivity.
  destruct (fst (snd s)); cbn [is_ok List.length]; lia.
Qed.

Lemma failure_of_names (l : list (string * M unit)) :
  map fst (flat_map failure_of l) = map fst (filter (fun s => negb (loaded s)) l).
Proof.
  induction l as [|s l IH]; [reflexivity|].
  cbn [flat_map filter]. rewrite map_app, IH. unfold failure_of at 1.
  replace (loaded s) with (is_ok (fst (snd s))) by reflexivity.
  destruct (fst (snd s)); reflexivity.
Qed.

Section Logging.
Variable pd : coercions.
Variable file : option workbook.

(** No body logs an error itself: only the [except] clauses do. *)
Lemma body_logs_nothing (s : string * M unit) :
  In s (sources pd file) -> errors (snd (snd s)) = [].
Proof.
  unfold sources, sheet_sources. cbn [In].
  intros [<-|[<-|[<-|[<-|[<-|[<-|[<-|[<-|[]]]]]]]]]; cbn [fst snd]; try reflexivity;
    unfold load_sales, load_rent, load_labour, load_stock, load_other, load_statement,
      load_utilities, load_savings, read_excel, set_columns, need;
    run_body; reflexivity.
Qed.

Lemma load_all_errors :
  errors (snd (load_all pd file)) = flat_map failure_of (sheet_sources pd file).
Proof.
  unfold load_all. rewrite (bind_ok_snd _ tt) by apply try_except_ok.
  cbn [and_then errors]. rewrite !try_except_errors.
  destruct (for_each_try (sheet_sources pd file)) as (Hok & _ & _).
  unfold failure_of at 2. cbn [fst snd]. rewrite Hok, app_nil_r.
  rewrite for_each_try_errors.
  - change (errors (snd official_2024)) with (@nil (string * error)).
    change (failure_of ("2024 official data"%string, official_2024))
      with (@nil (string * error)).
    cbn [app]. now rewrite ?app_nil_r.
  - intros s Hs. apply body_logs_nothing. right. exact Hs.
Qed.

(** X2: [load_and_clean_data] logs one error for each sheet source that did
    not load, in the order the sources are tried, and nothing else: the
    names logged are the names of the sources that failed, and the errors
    logged and the sources loaded add up to the eight sources. *)
Theorem every_failure_logged_once :
  map fst (errors (snd (load_all pd file)))
  = map fst (filter (fun s => negb (loaded s)) (sheet_sources pd file))
  /\ (List.length (errors (snd (load_all pd file)))
      + List.length (filter loaded (sources pd file)) = 8)%nat.
Proof.
  rewrite load_all_errors. split; [apply failure_of_names|].
  unfold sources. cbn [filter]. change (loaded ("2024 official data"%string, official_2024))
    with true. cbn [List.length].
  pose proof (failure_of_length (sheet_sources pd file)) as H.
  change (List.length (sheet_sources pd file)) with 7%nat in H. lia.
Qed.
End Logging.

(** X3: a source other than the Savings one that fails (missing file or
    sheet, wrong number of columns, missing column) has appended no frame:
    it contributes no record to the ledger. *)
Theorem failed_source_isolated (pd : coercions) (file : option workbook)
    (s : string * M unit) :
  In s (sources pd file) -> fst s <> "Savings 2025"%string -> loaded s = false ->
  frames_of s = [].
Proof. apply failed_source_contributes_nothing. Qed.

Lemma failed_source_isolated_witness :
  loaded ("Sales 2025"%string, load_sales no_coercion None) = false
  /\ frames_of ("Sales 2025"%string, load_sales no_coercion None) = [].
Proof.
  split; [reflexivity|].
  apply (failed_source_isolated no_coercion None).
  - right. left. reflexivity.
  - cbn. discriminate.
  - reflexivity.
Defined.

(** * Further properties of get_data_summary *)

Lemma unique_NoDup_Z (l : list Z) : NoDup (unique Z.eqb l).
Proof.
  induction l as [|a l IH]; cbn [unique]; constructor.
  - rewrite filter_In, Z.eqb_refl. cbn. intros [_ H]. discriminate.
  - apply NoDup_filter. exact IH.
Qed.

Lemma insert_sorted_increasing (a : Z) (l : list Z) :
  ~ In a l -> StronglySorted Z.lt l -> StronglySorted Z.lt (insert_sorted Z.leb a l).
Proof.
  induction l as [|b l IH]; intros Hn Hs; cbn [insert_sorted].
  - repeat constructor.
  - inversion Hs as [|? ? Hl Hb]; subst.
    assert (Hab : a <> b) by (intro; apply Hn; left; congruence).
    destruct (Z.leb_spec a b) as [Hle|Hlt].
    + constructor; [exact Hs|]. constructor; [lia|].
      eapply Forall_impl; [|exact Hb]. cbn. intros; lia.
    + constructor.
      * apply IH; [intro; apply Hn; now right | exact Hl].
      * apply Forall_forall. intros x Hx. apply In_insert_sorted in Hx.
        destruct Hx as [->|Hx]; [exact Hlt|].
        rewrite Forall_forall in Hb. now apply Hb.
Qed.

Lemma sorted_increasing (l : list Z) :
  NoDup l -> StronglySorted Z.lt (sorted Z.leb l).
Proof.
  induction 1 as [|a l Ha _ IH]; [constructor|].
  change (sorted Z.leb (a :: l)) with (insert_sorted Z.leb a (sorted Z.leb l)).
  apply insert_sorted_increasing; [|exact IH].
  intro H. apply Ha. exact (proj1 (In_sorted Z.leb a l) H).
Qed.

Lemma list_sum_cons (a : nat) (l : list nat) : list_sum (a :: l) = (a + list_sum l)%nat.
Proof. reflexivity. Qed.

Lemma list_sum_map_add {A} (f g : A -> nat) (l : list A) :
  list_sum (map (fun a => (f a + g a)%nat) l)
  = (list_sum (map f l) + list_sum (map g l))%nat.
Proof.
  induction l as [|a l IH]; [reflexivity|].
  cbn [map]. rewrite !list_sum_cons, IH. lia.
Qed.

Lemma list_sum_indicator (y : Z) (ys : list Z) :
  NoDup ys -> In y ys ->
  list_sum (map (fun y' => if (y =? y')%Z then 1%nat else 0%nat) ys) = 1%nat.
Proof.
  induction 1 as [|a ys Ha Hnd IH]; intro Hin; [destruct Hin|].
  cbn [map]. rewrite list_sum_cons. destruct Hin as [->|Hin].
  - rewrite Z.eqb_refl.
    assert (Hz : list_sum (map (fun y' => if (y =? y')%Z then 1%nat else 0%nat) ys)
                 = 0%nat).
    { clear IH Hnd. induction ys as [|b ys IHys]; [reflexivity|].
      cbn [map]. rewrite list_sum_cons. destruct (Z.eqb_spec y b) as [->|_].
      - exfalso. apply Ha. now left.
      - rewrite IHys; [reflexivity|]. intro H. apply Ha. now right. }
    rewrite Hz. reflexivity.
  - destruct (Z.eqb_spec y a) as [->|_]; [contradiction|]. now rewrite IH.
Qed.

Lemma count_by_year (data : frame) (ys : list Z) :
  NoDup ys -> (forall t, In t data -> In (Year t) ys) ->
  list_sum (map (fun y => List.length (filter (fun t => (Year t =? y)%Z) data)) ys)
  = List.length data.
Proof.
  intros Hnd. induction data as [|t data IH]; intro Hall.
  - clear Hnd Hall. induction ys as [|y ys IHys]; [reflexivity|].
    cbn [map filter List.length]. rewrite list_sum_cons. exact IHys.
  - rewrite (map_ext _ (fun y => ((if (Year t =? y)%Z then 1 else 0)
                                   + List.length (filter (fun t => (Year t =? y)%Z) data))%nat)).
    + rewrite list_sum_map_add.
      rewrite IH by (intros t' Ht'; apply Hall; now right).
      rewrite list_sum_indicator; [reflexivity | exact Hnd | apply Hall; now left].
    + intro y. cbn [filter]. destruct (Year t =? y)%Z; reflexivity.
Qed.

Lemma summary_shape (self : processor) (data : frame) :
  consolidated_data self = Some data ->
  exists s, get_data_summary self = Some s
    /\ total_transactions s = List.length data
    /\ StronglySorted Z.lt (years s)
    /\ (forall y, In y (years s) <-> exists t, In t data /\ Year t = y)
    /\ map fst (year_breakdown s) = years s
    /\ list_sum (map (fun kv => transactions (snd kv)) (year_breakdown s))
       = total_transactions s.
Proof.
  intro H. unfold get_data_summary. rewrite H. eexists. split; [reflexivity|].
  cbn [total_transactions years year_breakdown].
  set (ys := sorted Z.leb (unique Z.eqb (map Year data))).
  assert (Hin : forall y, In y ys <-> In y (map Year data)).
  { intro y. subst ys. now rewrite (In_sorted Z.leb), In_unique_Z. }
  assert (Hs : StronglySorted Z.lt ys) by apply sorted_increasing, unique_NoDup_Z.
  split; [reflexivity|]. split; [exact Hs|]. split.
  { intro y. rewrite Hin, in_map_iff. split; intros (t & A & B); exists t; tauto. }
  split.
  { rewrite map_map. cbn [fst]. apply map_id. }
  rewrite map_map. cbn [snd]. unfold breakdown_of. cbn [transactions].
  apply count_by_year.
  - clear Hin. induction Hs as [|a l _ IHl Hlt]; constructor; [|exact IHl].
    intro Ha. rewrite Forall_forall in Hlt. specialize (Hlt a Ha). lia.
  - intros t Ht. apply Hin. now apply in_map.
Qed.

(** X4: the summary of a ledger counts all its records; its years are
    exactly the years that occur in the ledger, each once, in increasing
    order; the year-wise breakdown has one entry for each of them, in that
    order; and the 'transactions' of the entries add up to the total: every
    record is counted in exactly one year. *)
Theorem summary_years_partition (self : processor) (data : frame) :
  consolidated_data self = Some data ->
  exists s, get_data_summary self = Some s
    /\ total_transactions s = List.length data
    /\ StronglySorted Z.lt (years s)
    /\ (forall y, In y (years s) <-> exists t, In t data /\ Year t = y)
    /\ map fst (year_breakdown s) = years s
    /\ list_sum (map (fun kv => transactions (snd kv)) (year_breakdown s))
       = total_transactions s.
Proof. exact (summary_shape self data). Qed.

Lemma summary_years_partition_witness :
  consolidated_data official_only = Some official_ledger
  /\ exists s, get_data_summary official_only = Some s /\ years s = [2024%Z].
Proof.
  split; [reflexivity|].
  destruct (summary_years_partition official_only official_ledger eq_refl)
    as (s & Hs & _).
  exists s. split; [exact Hs|].
  vm_compute in Hs. injection Hs as <-. reflexivity.
Defined.

(** X5: the year-wise breakdown agrees with the calculator: for a year that
    occurs in the ledger, the entry of the breakdown holds the number of
    records [filter_data(year)] returns and the total income and total
    expenses [calculate_kpis] gives for them. *)
Theorem breakdown_agrees_with_kpis (self : processor) (data : frame) (y : Z) :
  consolidated_data self = Some data ->
  In y (map Year data) -> y <> 0%Z ->
  let part := filter_data self (Some (YearInt y)) None None in
  exists s e, get_data_summary self = Some s
    /\ lookup_year y (year_breakdown s) = Some e
    /\ transactions e = List.length part
    /\ year_total_income e = total_income (calculate_kpis part)
    /\ year_total_expenses e = total_expenses (calculate_kpis part).
Proof.
  intros H Hin Hy. cbv zeta.
  assert (Hf : filter_data self (Some (YearInt y)) None None
               = filter (fun t => (Year t =? y)%Z) data).
  { rewrite (filter_data_matches self data) by exact H. apply filter_ext.
    intro t. unfold matches, matches_year, matches_categories, matches_type.
    apply Z.eqb_neq in Hy. rewrite Hy. cbn. now rewrite !andb_true_r. }
  destruct (summary_breakdown self data y H) as (s & Hs & Hl).
  exists s, (breakdown_of data y). split; [exact Hs|]. split.
  { rewrite Hl. replace (existsb (Z.eqb y) (map Year data)) with true; [reflexivity|].
    symmetry. apply existsb_exists. exists y. split; [exact Hin | apply Z.eqb_refl]. }
  rewrite Hf. unfold breakdown_of. cbn [transactions year_total_income year_total_expenses].
  destruct (filter (fun t => (Year t =? y)%Z) data) as [|t part] eqn:E.
  - exfalso. apply in_map_iff in Hin. destruct Hin as (t & Ht & Hin).
    assert (Hm : In t (filter (fun t => (Year t =? y)%Z) data)).
    { apply filter_In. split; [exact Hin | now apply Z.eqb_eq]. }
    rewrite E in Hm. destruct Hm.
  - rewrite calculate_kpis_cons. repeat split.
Qed.

Lemma breakdown_agrees_with_kpis_witness :
  In 2024%Z (map Year official_ledger)
  /\ exists s e, get_data_summary official_only = Some s
       /\ lookup_year 2024 (year_breakdown s) = Some e
       /\ year_total_income e = total_income (kpis_2024 official_only).
Proof.
  assert (Hin : In 2024%Z (map Year official_ledger)) by (left; reflexivity).
  split; [exact Hin|].
  destruct (breakdown_agrees_with_kpis official_only official_ledger 2024 eq_refl Hin)
    as (s & e & Hs & He & _ & Hi & _); [discriminate|].
  exists s, e. repeat split; assumption.
Defined.

Lemma increasing_2024_2025 (ys : list Z) :
  StronglySorted Z.lt ys -> In 2024%Z ys ->
  (forall y, In y ys -> y = 2024 \/ y = 2025)%Z ->
  ys = [2024%Z] \/ ys = [2024%Z; 2025%Z].
Proof.
  intros Hs Hin Hall.
  destruct ys as [|a rest]; [destruct Hin|].
  inversion Hs as [|? ? Hrest Ha]; subst. rewrite Forall_forall in Ha.
  assert (Ea : a = 2024%Z).
  { destruct (Hall a (or_introl eq_refl)) as [E|E]; [exact E|].
    destruct Hin as [E'|Hin]; [congruence|]. specialize (Ha _ Hin). lia. }
  subst a. destruct rest as [|b rest']; [now left|]. right.
  assert (Eb : b = 2025%Z).
  { specialize (Ha b (or_introl eq_refl)).
    destruct (Hall b (or_intror (or_introl eq_refl))); lia. }
  subst b. destruct rest' as [|c rest'']; [reflexivity|]. exfalso.
  inversion Hrest as [|? ? _ Hb]; subst. rewrite Forall_forall in Hb.
  specialize (Hb c (or_introl eq_refl)).
  destruct (Hall c (or_intror (or_intror (or_introl eq_refl)))); lia.
Qed.

Lemma loaded_years_cases (pd : coercions) (file : option workbook) (self : processor) :
  exists s, get_data_summary (snd (load_and_clean_data pd file self)) = Some s
    /\ (years s = [2024%Z] \/ years s = [2024%Z; 2025%Z])
    /\ (years s = [2024%Z; 2025%Z]
        <-> List.concat (flat_map frames_of (sheet_sources pd file)) <> []).
Proof.
  rewrite load_and_clean_data_ledger. cbn [snd].
  destruct (summary_shape (mkProcessor (Some (ledger pd file)))
              (ledger pd file) eq_refl) as (s & Hs & _ & Hsorted & Hin & _).
  exists s. split; [exact Hs|].
  assert (Hcase : years s = [2024%Z] \/ years s = [2024%Z; 2025%Z]).
  { apply increasing_2024_2025; [exact Hsorted | |].
    - apply Hin. exists sales_data. split; [|reflexivity].
      rewrite ledger_split. left. reflexivity.
    - intros y Hy. apply Hin in Hy. destruct Hy as (t & Ht & <-).
      pose proof (ledger_well_formed pd file) as Hw. rewrite Forall_forall in Hw.
      destruct (Hw t Ht) as (_ & _ & Hyear & _). exact Hyear. }
  split; [exact Hcase|].
  pose proof (sheet_records_2025 pd file) as H25. rewrite Forall_forall in H25.
  split.
  - intros E Hnil.
    assert (H5 : In 2025%Z (years s)) by (rewrite E; right; left; reflexivity).
    apply Hin in H5. destruct H5 as (t & Ht & Hy).
    rewrite ledger_split, Hnil, app_nil_r in Ht.
    revert Hy. clear -Ht. vm_compute in Ht.
    repeat (destruct Ht as [<-|Ht]; [discriminate|]). destruct Ht.
  - intro Hne. destruct Hcase as [E|E]; [|exact E]. exfalso.
    destruct (List.concat (flat_map frames_of (sheet_sources pd file))) as [|t rest] eqn:Er;
      [now apply Hne|].
    assert (H5 : In 2025%Z (years s)).
    { apply Hin. exists t. split.
      - rewrite ledger_split, Er. apply in_or_app. right. left. reflexivity.
      - apply H25. left. reflexivity. }
    rewrite E in H5. destruct H5 as [H5|[]]. discriminate.
Qed.

(** X6: after any load, the summary lists the year 2024 first and at most
    one more year, 2025; 2025 is listed exactly when some sheet gave a
    record. *)
Theorem loaded_summary_years (pd : coercions) (file : option workbook) (self : processor) :
  exists s, get_data_summary (snd (load_and_clean_data pd file self)) = Some s
    /\ (years s = [2024%Z] \/ years s = [2024%Z; 2025%Z])
    /\ (years s = [2024%Z; 2025%Z]
        <-> List.concat (flat_map frames_of (sheet_sources pd file)) <> []).
Proof. exact (loaded_years_cases pd file self). Qed.

(** * Further properties of filter_data with calculate_kpis *)

(** X7: a filter on the type returns records of that type only, so the KPIs
    of an Income view have total expenses 0, and the KPIs of an Expense view
    have total income 0 and a profit margin of 0, whatever the year and the
    categories asked for. *)
Theorem kpis_of_one_type (self : processor) (year : option year_arg)
    (categories : option (list string)) :
  (forall t, In t (filter_data self year categories (Some "Income"%string)) ->
             Type_ t = "Income"%string)
  /\ (forall t, In t (filter_data self year categories (Some "Expense"%string)) ->
                Type_ t = "Expense"%string)
  /\ total_expenses
       (calculate_kpis (filter_data self year categories (Some "Income"%string)))
     = 0%float
  /\ total_income
       (calculate_kpis (filter_data self year categories (Some "Expense"%string)))
     = 0%float
  /\ profit_margin
       (calculate_kpis (filter_data self year categories (Some "Expense"%string)))
     = 0%float.
Proof.
  assert (Hty : forall ty, ty = "Income"%string \/ ty = "Expense"%string ->
            forall t, In t (filter_data self year categories (Some ty)) -> Type_ t = ty).
  { intros ty Hty t Ht. destruct (consolidated_data self) as [data|] eqn:E.
    - rewrite (filter_data_matches self data) in Ht by exact E.
      apply filter_In in Ht. destruct Ht as [_ Hm]. unfold matches in Hm.
      apply andb_true_iff in Hm. destruct Hm as [_ Hm]. unfold matches_type in Hm.
      destruct Hty as [-> | ->]; cbn in Hm; now apply String.eqb_eq in Hm.
    - unfold filter_data in Ht. rewrite E in Ht. destruct Ht. }
  assert (Hnone : forall ty other l, (forall t, In t l -> Type_ t = ty) ->
            String.eqb ty other = false -> filter (is_type other) l = []).
  { intros ty other l Hl Hne. apply filter_none. apply Forall_forall. intros t Ht.
    unfold is_type. now rewrite (Hl t Ht). }
  split; [apply Hty; now left|]. split; [apply Hty; now right|].
  pose proof (Hnone _ "Expense"%string _ (Hty "Income"%string (or_introl eq_refl)) eq_refl)
    as Hi.
  pose proof (Hnone _ "Income"%string _ (Hty "Expense"%string (or_intror eq_refl)) eq_refl)
    as He.
  destruct (filter_data self year categories (Some "Income"%string)) as [|ti li];
    destruct (filter_data self year categories (Some "Expense"%string)) as [|te le];
    rewrite ?calculate_kpis_cons; cbv zeta;
    cbn [total_income total_expenses profit_margin calculate_kpis];
    rewrite ?Hi, ?He; repeat split.
Qed.

(** * Properties of the dashboard data *)

(** X8: for every workbook whose Withdrawals and Deposits columns hold
    numbers or blanks (the workbooks of this model), [load_data] returns
    True, with the generator holding the ledger and the official summary:
    it does not report failure, and [len(self.consolidated_data)] is
    defined. *)
Theorem load_data_always_succeeds (pd : coercions) (file : option workbook)
    (self : StaticDashboardGenerator) :
  load_data pd file self
  = Returns (true, mkGenerator (mkProcessor (Some (ledger pd file)))
                     (Some (ledger pd file)) (Some get_official_2024_summary))
  /\ (6 <= List.length (ledger pd file))%nat.
Proof.
  unfold load_data. rewrite load_and_clean_data_ledger. split; [reflexivity|].
  rewrite ledger_split, length_app. cbn. lia.
Qed.

Lemma loaded_breakdown (pd : coercions) (file : option workbook) :
  exists s, get_data_summary (data_processor (loaded_generator pd file)) = Some s
    /\ total_transactions s = List.length (ledger pd file)
    /\ lookup_year 2024 (year_breakdown s) = Some (mkYearEntry 6 22619122 19230046.65)
    /\ lookup_year 2025 (year_breakdown s)
       = if has_2025 pd file then Some (breakdown_of (ledger pd file) 2025) else None.
Proof.
  cbn [loaded_generator data_processor].
  destruct (ledger_2024_figures pd file new_processor) as (_ & _ & s & Hs & H24).
  rewrite load_and_clean_data_ledger in Hs. cbn [snd] in Hs.
  destruct (summary_breakdown (mkProcessor (Some (ledger pd file))) (ledger pd file)
              2025 eq_refl) as (s' & Hs' & H25).
  rewrite Hs in Hs'. injection Hs' as <-.
  exists s. split; [exact Hs|]. split.
  - unfold get_data_summary in Hs. cbn in Hs. injection Hs as <-. reflexivity.
  - split; [exact H24 | exact H25].
Qed.

(** X9: the key metrics [generate_data_json] takes from the official summary
    agree with the ledger, whatever the workbook: 'total_revenue_2024' is
    the total income and 'total_expenses_2024' (operating expenses plus cost
    of sales) the total expenses of the 2024 entry of the year-wise
    breakdown it returns beside them. *)
Theorem key_metrics_agree_with_ledger (pd : coercions) (file : option workbook) :
  exists d e, generate_data_json (loaded_generator pd file) = Returns d
    /\ dd_total_transactions d = List.length (ledger pd file)
    /\ lookup_year 2024 (dd_year_breakdown d) = Some e
    /\ total_revenue_2024 (dd_key_metrics d) = year_total_income e
    /\ total_expenses_2024 (dd_key_metrics d) = year_total_expenses e.
Proof.
  destruct (loaded_breakdown pd file) as (s & Hs & Hn & H24 & _).
  unfold generate_data_json. rewrite Hs. cbn [loaded_generator generator_official].
  eexists. exists (mkYearEntry 6 22619122 19230046.65). split; [reflexivity|].
  cbn [dd_total_transactions dd_year_breakdown dd_key_metrics total_revenue_2024
         total_expenses_2024 year_total_income year_total_expenses].
  repeat split; [exact Hn | exact H24].
Qed.

(** X10: the "Financial Summary" table of the page needs a 2025 entry in the
    year-wise breakdown. When no sheet gave a record (the workbook is
    missing, or every sheet failed or was empty), [load_data] has succeeded
    but computing the table raises KeyError 2025; otherwise the table is
    computed, and its 2024 column is the official figures. It never fails
    for want of the 2024 entry. *)
Theorem financial_summary_needs_2025 (pd : coercions) (file : option workbook) :
  has_2025 pd None = false
  /\ exists d, generate_data_json (loaded_generator pd file) = Returns d
    /\ match financial_summary d with
       | Raises e => has_2025 pd file = false /\ e = MissingYear 2025
       | Returns table =>
           has_2025 pd file = true
           /\ value_2024 (sales_revenue table) = 22619122%float
           /\ value_2024 (total_expenses_row table) = 19230046.65%float
           /\ value_2024 (net_profit_row table) = 0x1.9db49acccccd0p+21%float
           /\ value_2025 (sales_revenue table)
              = year_total_income (breakdown_of (ledger pd file) 2025)
           /\ value_2025 (total_expenses_row table)
              = year_total_expenses (breakdown_of (ledger pd file) 2025)
       end.
Proof.
  split; [reflexivity|].
  destruct (loaded_breakdown pd file) as (s & Hs & Hn & H24 & H25).
  unfold generate_data_json. rewrite Hs. cbn [loaded_generator generator_official].
  eexists. split; [reflexivity|].
  unfold financial_summary. cbn [dd_year_breakdown]. rewrite H24, H25.
  destruct (has_2025 pd file); cbv zeta; cbn; repeat split.
Qed.

(** X11: the year-over-year chart has its first group of bars for 2024, with
    income 22619122 and expenses 19230046.65, and at most one more group,
    for 2025; the three series have the same length. *)
Theorem yoy_chart_groups (pd : coercions) (file : option workbook) :
  exists chart, create_yoy_comparison (loaded_generator pd file) = Returns chart
    /\ (yoy_years chart = [2024%Z] \/ yoy_years chart = [2024%Z; 2025%Z])
    /\ List.length (yoy_income chart) = List.length (yoy_years chart)
    /\ List.length (yoy_expenses chart) = List.length (yoy_years chart)
    /\ hd 0%float (yoy_income chart) = 22619122%float
    /\ hd 0%float (yoy_expenses chart) = 19230046.65%float.
Proof.
  destruct (loaded_years_cases pd file new_processor) as (s & Hs & Hy & _).
  rewrite load_and_clean_data_ledger in Hs. cbn [snd] in Hs.
  destruct (summary_shape (mkProcessor (Some (ledger pd file)))
              (ledger pd file) eq_refl) as (s' & Hs' & _ & _ & _ & Hk & _).
  rewrite Hs in Hs'. injection Hs' as <-.
  destruct (loaded_breakdown pd file) as (s'' & Hs'' & _ & H24 & _).
  cbn [loaded_generator data_processor] in Hs''. rewrite Hs in Hs''. injection Hs'' as <-.
  unfold create_yoy_comparison. cbn [loaded_generator data_processor]. rewrite Hs.
  eexists. split; [reflexivity|]. cbn [yoy_years yoy_income yoy_expenses].
  split; [rewrite Hk; exact Hy|]. split; [now rewrite !length_map|].
  split; [now rewrite !length_map|].
  destruct (year_breakdown s) as [|[y e] rest] eqn:E.
  - destruct Hy as [Hy|Hy]; rewrite Hy in Hk; discriminate Hk.
  - assert (y = 2024%Z) by (destruct Hy as [Hy|Hy]; rewrite Hy in Hk; cbn in Hk; congruence).
    subst y. unfold lookup_year in H24. cbn in H24. injection H24 as ->.
    split; reflexivity.
Qed.

(** * Properties of deploy.py *)

Lemma clean_fold (dir : list item) (n : nat) (kept : list item) :
  fold_left
    (fun (st : nat * list item) it =>
       if removes it then (S (fst st), snd st) else (fst st, snd st ++ [it]))
    dir (n, kept)
  = ((n + List.length (filter removes dir))%nat,
     kept ++ filter (fun it => negb (removes it)) dir).
Proof.
  revert n kept. induction dir as [|it dir IH]; intros n kept; cbn [fold_left filter].
  - cbn. now rewrite Nat.add_0_r, app_nil_r.
  - destruct (removes it); cbn [fst snd negb]; rewrite IH.
    + cbn [List.length]. f_equal. lia.
    + rewrite <- app_assoc. reflexivity.
Qed.

(** The count and the directory left, without the loop. *)
Lemma clean_for_deployment_filter (dir : list item) :
  clean_for_deployment dir
  = (List.length (filter removes dir), filter (fun it => negb (removes it)) dir).
Proof. unfold clean_for_deployment. now rewrite clean_fold. Qed.

Lemma name_in_true (name : string) (names : list string) :
  name_in name names = true <-> In name names.
Proof.
  unfold name_in. rewrite existsb_exists. split.
  - intros (x & Hx & E). apply String.eqb_eq in E. now subst.
  - intro H. exists name. split; [exact H | apply String.eqb_refl].
Qed.

(** X12: [clean_for_deployment] never removes an entry whose name starts with
    a dot, a file of [keep_files], a directory of [keep_dirs], or an entry
    that is neither a file nor a directory; and whatever it leaves keeps its
    place in the listing. *)
Theorem clean_never_removes (dir : list item) (it : item) :
  In it dir ->
  startswith_dot (item_name it) = true
  \/ (item_kind it = IsFile /\ In (item_name it) keep_files)
  \/ (item_kind it = IsDir /\ In (item_name it) keep_dirs)
  \/ item_kind it = IsOther \/ item_kind it = IsBroken ->
  In it (snd (clean_for_deployment dir)).
Proof.
  intros Hin H. rewrite clean_for_deployment_filter. cbn [snd].
  apply filter_In. split; [exact Hin|]. apply negb_true_iff. unfold removes.
  destruct (startswith_dot (item_name it)) eqn:Ed.
  - destruct (String.eqb (item_name it) ".gitignore") eqn:Eg; cbn [negb andb];
      [|reflexivity].
    apply String.eqb_eq in Eg.
    destruct (item_kind it); try reflexivity.
    + rewrite Eg. reflexivity.
    + rewrite andb_false_r. reflexivity.
  - cbn [andb].
    destruct H as [H|[[Hk Hn]|[[Hk Hn]|[Hk|Hk]]]]; try discriminate; rewrite Hk;
      try reflexivity.
    + apply name_in_true in Hn. now rewrite Hn.
    + apply name_in_true in Hn. now rewrite Hn.
Qed.

Lemma clean_never_removes_witness :
  In (mkItem "docs" IsDir true)
     (snd (clean_for_deployment
             [mkItem "notes.txt" IsFile true; mkItem "docs" IsDir true])).
Proof.
  apply clean_never_removes.
  - right. left. reflexivity.
  - right. right. left. split; [reflexivity | left; reflexivity].
Defined.

(** X13: the count [clean_for_deployment] returns is the number of entries
    that are gone; and when no removal fails, every entry left is hidden, a
    file to keep, a directory to keep, or neither file nor directory. *)
Theorem clean_leaves_only_kept (dir : list item) :
  (fst (clean_for_deployment dir) + List.length (snd (clean_for_deployment dir))
   = List.length dir)%nat
  /\ ((forall it, In it dir -> removable it = true) ->
      forall it, In it (snd (clean_for_deployment dir)) ->
        In it dir
        /\ (startswith_dot (item_name it) = true
            \/ (item_kind it = IsFile /\ In (item_name it) keep_files)
            \/ (item_kind it = IsDir /\ In (item_name it) keep_dirs)
            \/ item_kind it = IsOther \/ item_kind it = IsBroken)).
Proof.
  rewrite clean_for_deployment_filter. cbn [fst snd]. split.
  - induction dir as [|it dir IH]; [reflexivity|].
    cbn [filter]. destruct (removes it); cbn [negb List.length]; lia.
  - intros Hrem it Hit. apply filter_In in Hit. destruct Hit as [Hin Hkeep].
    split; [exact Hin|]. apply negb_true_iff in Hkeep. unfold removes in Hkeep.
    specialize (Hrem it Hin).
    destruct (startswith_dot (item_name it)) eqn:Ed; [now left|]. right.
    cbn [andb] in Hkeep. rewrite Hrem in Hkeep.
    destruct (item_kind it); auto.
    + left. split; [reflexivity|]. apply name_in_true.
      destruct (name_in (item_name it) keep_files); [reflexivity | discriminate].
    + right. left. split; [reflexivity|]. apply name_in_true.
      destruct (name_in (item_name it) keep_dirs); [reflexivity | discriminate].
Qed.

Lemma clean_leaves_only_kept_witness :
  (forall it, In it [mkItem "notes.txt" IsFile true; mkItem "docs" IsDir true] ->
              removable it = true)
  /\ clean_for_deployment [mkItem "notes.txt" IsFile true; mkItem "docs" IsDir true]
     = (1%nat, [mkItem "docs" IsDir true])
  /\ forall it,
       In it (snd (clean_for_deployment
                     [mkItem "notes.txt" IsFile true; mkItem "docs" IsDir true])) ->
       In it [mkItem "notes.txt" IsFile true; mkItem "docs" IsDir true].
Proof.
  assert (Hrem : forall it,
             In it [mkItem "notes.txt" IsFile true; mkItem "docs" IsDir true] ->
             removable it = true).
  { intros it [<-|[<-|[]]]; reflexivity. }
  split; [exact Hrem|]. split; [reflexivity|].
  intros it Hit.
  exact (proj1 (proj2 (clean_leaves_only_kept _) Hrem it Hit)).
Defined.

(** X14: cleaning twice: when no removal failed, a second
    [clean_for_deployment] removes nothing and leaves the directory as it
    is. *)
Theorem clean_twice (dir : list item) :
  (forall it, In it dir -> removable it = true) ->
  clean_for_deployment (snd (clean_for_deployment dir))
  = (0%nat, snd (clean_for_deployment dir)).
Proof.
  intro Hrem. rewrite !clean_for_deployment_filter. cbn [snd].
  assert (H : forall l, Forall (fun it => removes it = false) l ->
                        filter removes l = [] /\ filter (fun it => negb (removes it)) l = l).
  { induction 1 as [|it l Hit _ [IH1 IH2]]; [split; reflexivity|].
    cbn [filter]. rewrite Hit. cbn [negb]. now rewrite IH1, IH2. }
  destruct (H (filter (fun it => negb (removes it)) dir)) as [-> ->]; [|reflexivity].
  apply Forall_forall. intros it Hit. apply filter_In in Hit.
  now apply negb_true_iff.
Qed.

Lemma clean_twice_witness :
  clean_for_deployment
    (snd (clean_for_deployment [mkItem "notes.txt" IsFile true; mkItem "docs" IsDir true]))
  = (0%nat, [mkItem "docs" IsDir true]).
Proof.
  apply (clean_twice [mkItem "notes.txt" IsFile true; mkItem "docs" IsDir true]).
  intros it [<-|[<-|[]]]; reflexivity.
Defined.

Lemma verify_forallb (dir : list item) :
  verify_deployment_files dir = forallb (path_exists dir) required_files.
Proof.
  unfold verify_deployment_files, required_files. cbn [fold_left forallb].
  destruct (path_exists dir "index.html"), (path_exists dir "README.md"),
    (path_exists dir ".gitignore"); reflexivity.
Qed.

Lemma path_exists_after_clean (dir : list item) (name : string) :
  (forall it, In it dir -> item_name it = name -> removes it = false) ->
  path_exists (snd (clean_for_deployment dir)) name = path_exists dir name.
Proof.
  intro H. rewrite clean_for_deployment_filter. cbn [snd]. unfold path_exists.
  induction dir as [|it dir IH]; [reflexivity|].
  cbn [filter existsb].
  assert (IH' : existsb
                  (fun it0 => String.eqb (item_name it0) name
                              && match item_kind it0 with IsBroken => false | _ => true end)
                  (filter (fun it0 => negb (removes it0)) dir)
                = existsb
                    (fun it0 => String.eqb (item_name it0) name
                                && match item_kind it0 with IsBroken => false | _ => true end)
                    dir).
  { apply IH. intros it' Hin. apply H. now right. }
  destruct (String.eqb_spec (item_name it) name) as [E|E].
  - rewrite (H it (or_introl eq_refl) E). cbn [negb existsb].
    rewrite IH'. destruct (String.eqb_spec (item_name it) name); [reflexivity | contradiction].
  - destruct (removes it); cbn [negb existsb]; rewrite IH';
      destruct (String.eqb_spec (item_name it) name); try contradiction; reflexivity.
Qed.

Lemma verify_after_clean (dir : list item) :
  (forall it, In it dir -> item_kind it = IsDir ->
              item_name it <> "index.html"%string /\ item_name it <> "README.md"%string) ->
  verify_deployment_files (snd (clean_for_deployment dir)) = verify_deployment_files dir.
Proof.
  intro H. rewrite !verify_forallb. unfold required_files. cbn [forallb].
  assert (Hkeep : forall name, In name required_files ->
            forall it, In it dir -> item_name it = name -> removes it = false).
  { intros name Hname it Hin E. unfold removes. rewrite E.
    specialize (H it Hin). rewrite E in H.
    cbn in Hname. destruct Hname as [<-|[<-|[<-|[]]]]; cbn;
      destruct (item_kind it); try reflexivity;
      destruct (H eq_refl) as [A B]; exfalso; auto. }
  rewrite !path_exists_after_clean; [reflexivity| | |];
    apply Hkeep; cbn; auto.
Qed.

(** X15: cleaning does not change what [verify_deployment_files] finds,
    provided no directory is named index.html or README.md (a directory of
    that name is removed, a file is kept): the three required files are
    present after [clean_for_deployment] exactly when they were before. *)
Theorem verify_unchanged_by_clean (dir : list item) :
  (forall it, In it dir -> item_kind it = IsDir ->
              item_name it <> "index.html"%string /\ item_name it <> "README.md"%string) ->
  verify_deployment_files (snd (clean_for_deployment dir)) = verify_deployment_files dir.
Proof. exact (verify_after_clean dir). Qed.

Lemma verify_unchanged_by_clean_witness :
  verify_deployment_files
    (snd (clean_for_deployment
            [mkItem "index.html" IsFile true; mkItem "old.csv" IsFile true]))
  = verify_deployment_files
      [mkItem "index.html" IsFile true; mkItem "old.csv" IsFile true].
Proof.
  apply verify_unchanged_by_clean.
  intros it [<-|[<-|[]]] Hk; discriminate Hk.
Defined.

(** X16: the workbook the loader reads is not among the files to keep:
    when it is in the directory as a file that can be removed,
    [clean_for_deployment] removes it, and it does not exist afterwards. *)
Theorem clean_removes_workbook (dir : list item) :
  (forall it, In it dir -> item_name it = workbook_name ->
              item_kind it = IsFile /\ removable it = true) ->
  path_exists (snd (clean_for_deployment dir)) workbook_name = false
  /\ forall it, In it (snd (clean_for_deployment dir)) -> item_name it <> workbook_name.
Proof.
  intro H.
  assert (Hgone : forall it, In it (snd (clean_for_deployment dir)) ->
                             item_name it <> workbook_name).
  { intros it Hit E. rewrite clean_for_deployment_filter in Hit. cbn [snd] in Hit.
    apply filter_In in Hit. destruct Hit as [Hin Hkeep].
    destruct (H it Hin E) as [Hk Hr]. apply negb_true_iff in Hkeep.
    unfold removes in Hkeep. rewrite E, Hk, Hr in Hkeep. vm_compute in Hkeep.
    discriminate. }
  split; [|exact Hgone].
  unfold path_exists. destruct (existsb _ _) eqn:Ex; [|reflexivity].
  apply existsb_exists in Ex. destruct Ex as (it & Hit & Hn).
  apply andb_true_iff in Hn. destruct Hn as [Hn _]. apply String.eqb_eq in Hn.
  exfalso. exact (Hgone it Hit Hn).
Qed.

Lemma clean_removes_workbook_witness :
  path_exists
    (snd (clean_for_deployment
            [mkItem "index.html" IsFile true; mkItem workbook_name IsFile true]))
    workbook_name = false.
Proof.
  apply clean_removes_workbook.
  intros it [<-|[<-|[]]] E; [discriminate E | split; reflexivity].
Defined.

(** X17: [main] touches nothing when index.html does not exist; when it
    does, [main] cleans the directory and, no directory being named
    index.html or README.md, reports the deployment ready exactly when
    README.md and .gitignore exist as well. *)
Theorem main_outcome (dir : list item) :
  (path_exists dir "index.html" = false -> main dir = (NoIndex, dir))
  /\ (path_exists dir "index.html" = true ->
      (forall it, In it dir -> item_kind it = IsDir ->
                  item_name it <> "index.html"%string
                  /\ item_name it <> "README.md"%string) ->
      snd (main dir) = snd (clean_for_deployment dir)
      /\ (fst (main dir) = Ready
          <-> path_exists dir "README.md" = true /\ path_exists dir ".gitignore" = true)
      /\ fst (main dir) <> NoIndex).
Proof.
  unfold main. split.
  - intros ->. reflexivity.
  - intros Hi Hd. rewrite Hi. cbn [negb].
    pose proof (verify_after_clean dir Hd) as Hv.
    destruct (clean_for_deployment dir) as [removed remaining]. cbn [snd] in *.
    rewrite Hv, verify_forallb. unfold required_files. cbn [forallb]. rewrite Hi.
    destruct (path_exists dir "README.md"), (path_exists dir ".gitignore");
      cbn; repeat split; try discriminate; intros; try tauto;
      try (destruct H; discriminate).
Qed.

Lemma main_outcome_witness :
  path_exists [mkItem "old.csv" IsFile true] "index.html" = false
  /\ main [mkItem "old.csv" IsFile true] = (NoIndex, [mkItem "old.csv" IsFile true]).
Proof.
  split; [reflexivity|].
  apply (proj1 (main_outcome [mkItem "old.csv" IsFile true])). reflexivity.
Defined.

(** * Records without a date *)

Lemma date_notna_some (d : timestamp) : date_notna d = true -> d <> None.
Proof. destruct d; [discriminate | intro H; discriminate H]. Qed.

(** A record with a date, or a record of the Saving sheet. *)
Lemma frames_dated (pd : coercions) (file : option workbook) (s : string * M unit) :
  In s (sources pd file) ->
  Forall (Forall (fun t => Date t <> None
                           \/ Category t = "Savings"%string
                           \/ Category t = "Savings Withdrawal"%string))
    (frames_of s).
Proof.
  unfold sources, sheet_sources, frames_of. cbn [In].
  intros [<-|[<-|[<-|[<-|[<-|[<-|[<-|[<-|[]]]]]]]]]; cbn [fst snd].
  - cbn. frames_done; left; discriminate.
  - unfold load_sales, read_excel, set_columns. run_body; frames_done.
    apply Forall_map_filter. intros row H. apply andb_true_iff in H.
    left. cbn [Date]. apply date_notna_some. tauto.
  - unfold load_labour, load_statement, read_excel, need. run_body; frames_done.
    apply Forall_map_filter. intros row H. apply andb_true_iff in H.
    left. cbn [Date]. apply date_notna_some. tauto.
  - unfold load_rent, read_excel, set_columns. run_body; frames_done.
    apply Forall_map_filter. intros row H. apply andb_true_iff in H.
    left. cbn [Date]. apply date_notna_some. tauto.
  - unfold load_stock, load_statement, read_excel, need. run_body; frames_done.
    apply Forall_map_filter. intros row H. apply andb_true_iff in H.
    left. cbn [Date]. apply date_notna_some. tauto.
  - unfold load_utilities, read_excel, need. run_body; frames_done.
    unfold utilities_rows. rewrite filter_filter.
    apply Forall_map_filter. intros row H. apply andb_true_iff in H.
    left. cbn [Date]. apply date_notna_some. tauto.
  - unfold load_savings, read_excel, need. run_body; frames_done;
      (apply Forall_map_const; intro; right; cbn; auto).
  - unfold load_other, load_statement, read_excel, need. run_body; frames_done.
    apply Forall_map_filter. intros row H. apply andb_true_iff in H.
    left. cbn [Date]. apply date_notna_some. tauto.
Qed.

(** X18: a record of the ledger without a date (NaT) can only come from the
    Saving sheet: the official figures and the Sales, Rent, Labour, Purchase
    of stock, Expense and Utilities blocks never add a record whose date is
    missing or did not parse, and no block adds a record whose amount is
    missing (NaN). *)
Theorem undated_records_only_from_savings (pd : coercions) (file : option workbook)
    (t : Transaction) :
  In t (ledger pd file) ->
  isna (Amount t) = false
  /\ (Date t = None ->
      Category t = "Savings"%string \/ Category t = "Savings Withdrawal"%string).
Proof.
  intro Hin. split.
  - pose proof (ledger_well_formed pd file) as Hw. rewrite Forall_forall in Hw.
    destruct (Hw t Hin) as (_ & _ & _ & Hna & _). exact Hna.
  - intro Hd.
    assert (Hall : Forall (fun t => Date t <> None
                                    \/ Category t = "Savings"%string
                                    \/ Category t = "Savings Withdrawal"%string)
                     (ledger pd file)).
    { unfold ledger. rewrite load_all_all_data. apply Forall_concat.
      apply Forall_flat_map. apply Forall_forall. apply frames_dated. }
    rewrite Forall_forall in Hall. destruct (Hall t Hin) as [H|H]; [contradiction | exact H].
Qed.

Lemma undated_records_only_from_savings_witness :
  In (mkTransaction None 100 2025 "Savings" "Income" (Str "deposit"))
     (ledger no_coercion (Some undated_book))
  /\ (Category (mkTransaction None 100 2025 "Savings" "Income" (Str "deposit"))
       = "Savings"%string
      \/ Category (mkTransaction None 100 2025 "Savings" "Income" (Str "deposit"))
         = "Savings Withdrawal"%string).
Proof.
  assert (Hin : In (mkTransaction None 100 2025 "Savings" "Income" (Str "deposit"))
                  (ledger no_coercion (Some undated_book))).
  { vm_compute. do 6 right. left. reflexivity. }
  split; [exact Hin|].
  apply (undated_records_only_from_savings no_coercion (Some undated_book) _ Hin).
  reflexivity.
Defined.

(** X19: the Rent block skips the first data row of the sheet whatever it
    holds: the ledger does not depend on that row, and a rent sheet of five
    columns with a single row loads and adds no record. *)
Theorem rent_first_row_ignored (pd : coercions) (wb : workbook) (h : list string)
    (first other : list cell) (rest : list (list cell)) :
  rent wb = Some (mkSheet h (first :: rest)) ->
  ledger pd (Some wb) = ledger pd (Some (with_rent wb (mkSheet h (other :: rest))))
  /\ (List.length h = 5%nat -> rest = [] ->
      load_rent pd (Some wb) = (Ok tt, mkEffects [[]] true [])).
Proof.
  intro H. split.
  - unfold ledger, load_all, sheet_sources, load_rent, read_excel.
    cbn [rent with_rent]. rewrite H. reflexivity.
  - intros Hh ->. unfold load_rent, read_excel. rewrite H.
    unfold bind, lift, set_columns. cbn beta iota. cbn [header]. rewrite Hh.
    reflexivity.
Qed.

Lemma rent_first_row_ignored_witness :
  load_rent no_coercion
    (Some (with_rent no_sheets
             (mkSheet five_columns [[Blank; jan15; Num 9; Blank; Str "rent"]])))
  = (Ok tt, mkEffects [[]] true []).
Proof.
  apply (proj2 (rent_first_row_ignored no_coercion
                  (with_rent no_sheets
                     (mkSheet five_columns [[Blank; jan15; Num 9; Blank; Str "rent"]]))
                  five_columns [Blank; jan15; Num 9; Blank; Str "rent"] [] []
                  eq_refl)); reflexivity.
Defined.
